(** * intertube, web/file.go: the presigned upload workflow

    A shallow embedding of the upload handlers of [web/file.go]
    ([uploadStart], [uploadStart2], [uploadFinish]), of the storage token
    refresher ([refreshB2Token]), of the content-disposition encoder
    ([encodeContentDisp]), of the id [downloadTrack] looks up and of the
    delete handler ([DeleteFile]), with the statements of the
    specification settled against them and further properties of the code.

    Go strings are byte sequences: they are modelled by [string] (a list of
    8-bit [ascii]).  [int64] values are modelled by [Z], with the
    wrap-around of the additions the handlers perform written out
    ([add64]).  The record store, the two storage buckets and the trace of
    calls to the collaborators form an explicit [World] threaded through a
    small state monad whose results distinguish a value, an early [return]
    and a [panic]. *)

From Stdlib Require Import ZArith NArith Lia Ascii String List.
From stdpp Require Import gmap strings list pretty.

Local Open Scope Z_scope.

(** ** Go standard library functions the source calls *)

Module GoLib.

(** The double quote character, which the source writes as an escaped quote
    inside its string literals. *)
Definition dquote : string := String "034"%char EmptyString.

Definition byte_eqb (a b : ascii) : bool := Ascii.eqb a b.

(** [s[i:]] *)
Definition slice_from (i : nat) (s : string) : string :=
  String.substring i (String.length s - i) s.

(** [path.Ext]: the loop runs [i] from [len(path)-1] down to [0] and stops
    at the first slash; [n] below is [i+1]. *)
Fixpoint ext_loop (path : string) (n : nat) : string :=
  match n with
  | O => ""
  | S i =>
      match String.get i path with
      | Some c =>
          if byte_eqb c "/"%char then ""
          else if byte_eqb c "."%char then slice_from i path
          else ext_loop path i
      | None => ""
      end
  end.

Definition Ext (path : string) : string := ext_loop path (String.length path).

Definition in_range (lo hi c : ascii) : bool :=
  (N_of_ascii lo <=? N_of_ascii c)%N && (N_of_ascii c <=? N_of_ascii hi)%N.

Definition is_alnum (c : ascii) : bool :=
  in_range "a" "z" c || in_range "A" "Z" c || in_range "0" "9" c.

(** [url.shouldEscape(c, encodeQueryComponent)]: letters, digits and the
    four unreserved marks stay; the reserved characters and everything else
    are escaped in a query component. *)
Definition shouldEscape (c : ascii) : bool :=
  if is_alnum c then false
  else if byte_eqb c "-" || byte_eqb c "_" || byte_eqb c "." || byte_eqb c "~"
       then false
       else true.

Definition upperhex : string := "0123456789ABCDEF".

Definition hex_digit (n : N) : ascii :=
  match String.get (N.to_nat n) upperhex with
  | Some c => c
  | None => "0"%char
  end.

(** One iteration of the second loop of [url.escape] in query-component
    mode: a space becomes a plus sign, an escaped byte becomes [%XY] with
    [X = upperhex[c>>4]] and [Y = upperhex[c&15]]. *)
Definition escape_byte (c : ascii) : string :=
  if byte_eqb c " " then "+"
  else if shouldEscape c then
    String "%" (String (hex_digit (N.shiftr (N_of_ascii c) 4))
               (String (hex_digit (N.land (N_of_ascii c) 15)) ""))
  else String c "".

(** [url.QueryEscape].  (The first loop of [url.escape] only counts the
    bytes to escape, to size the buffer and to return [s] itself when
    there is none.) *)
Fixpoint QueryEscape (s : string) : string :=
  match s with
  | EmptyString => ""
  | String c t => escape_byte c +:+ QueryEscape t
  end.

(** [strings.ReplaceAll(s, old, new)] for a non-empty [old]: scan from the
    left, replace each non-overlapping occurrence.  [skip] counts the bytes
    of a matched occurrence that are still to be dropped. *)
Fixpoint replace_from (old new s : string) (skip : nat) : string :=
  match s with
  | EmptyString => ""
  | String c t =>
      match skip with
      | S k => replace_from old new t k
      | O =>
          if String.prefix old s
          then new +:+ replace_from old new t (String.length old - 1)
          else String c (replace_from old new t 0)
      end
  end.

Definition ReplaceAll (s old new : string) : string := replace_from old new s 0.

Definition is_digit (c : ascii) : bool := in_range "0" "9" c.

Definition digit_val (c : ascii) : Z := Z.of_N (N_of_ascii c) - 48.

(** The digit loop of [strconv.ParseUint] in base 10 ([None]: a byte that
    is no decimal digit). *)
Fixpoint parse_digits (s : string) (acc : Z) : option Z :=
  match s with
  | EmptyString => Some acc
  | String c t =>
      if is_digit c then parse_digits t (10 * acc + digit_val c) else None
  end.

(** [strconv.ParseInt(s, 10, 64)], [None] standing for a non-nil error
    (syntax or range): an optional sign, then at least one decimal digit,
    and the value must fit in an [int64]. *)
Definition ParseInt (s : string) : option Z :=
  match s with
  | EmptyString => None
  | String c t =>
      let neg := byte_eqb c "-" in
      let body := if byte_eqb c "+" || neg then t else s in
      match body with
      | EmptyString => None
      | _ =>
          match parse_digits body 0 with
          | None => None
          | Some un =>
              if negb neg && (2 ^ 63 <=? un) then None
              else if neg && (2 ^ 63 <? un) then None
              else Some (if neg then - un else un)
          end
      end
  end.

End GoLib.

(** ** Percent-decoding, as a client reading the header does it

    This decoder follows the specification's words (the extended parameter is
    "decodable back to the original string"); it is the decoding of RFC 3986
    percent-encoded octets and is not part of the source. *)

Module PercentDecode.

Definition unhex (c : ascii) : option N :=
  let n := N_of_ascii c in
  if GoLib.in_range "0" "9" c then Some (n - 48)%N
  else if GoLib.in_range "A" "F" c then Some (n - 55)%N
  else if GoLib.in_range "a" "f" c then Some (n - 87)%N
  else None.

Fixpoint pct_decode (s : string) : option string :=
  match s with
  | EmptyString => Some ""
  | String c t =>
      if GoLib.byte_eqb c "%" then
        match t with
        | String h (String l t') =>
            match unhex h, unhex l with
            | Some a, Some b =>
                match pct_decode t' with
                | Some r => Some (String (ascii_of_N (16 * a + b)) r)
                | None => None
                end
            | _, _ => None
            end
        | _ => None
        end
      else
        match pct_decode t with
        | Some r => Some (String c r)
        | None => None
        end
  end.

End PercentDecode.

(** ** The content-disposition encoder *)

(** The extended [filename*] value: the second and third statements of
    [encodeContentDisp]. *)
Definition escaped_name (filename : string) : string :=
  GoLib.ReplaceAll (GoLib.QueryEscape filename) "+" "%20".

Definition encodeContentDisp (filename : string) : string :=
  let ext := GoLib.Ext filename in
  let escaped := GoLib.QueryEscape filename in
  let escaped := GoLib.ReplaceAll escaped "+" "%20" in
  "attachment; filename=" +:+ GoLib.dquote +:+ "file" +:+ ext +:+ GoLib.dquote
    +:+ "; filename*=UTF-8''" +:+ escaped.

(** ** Data model *)

Definition maxFileSize : Z := 500 * 1000 * 1000.

(** [int64] addition. *)
Definition wrap64 (z : Z) : Z := (z + 2 ^ 63) mod 2 ^ 64 - 2 ^ 63.
Definition add64 (a b : Z) : Z := wrap64 (a + b).

(** [int64] negation: [-d] is [d] again for the least [int64]. *)
Definition neg64 (d : Z) : Z := wrap64 (- d).

(** [strconv.FormatInt(z, 10)] *)
Definition FormatInt (z : Z) : string := pretty z.

Inductive Error : Type :=
| ErrNotFound
| ErrMsg (msg : string).

(** Modelled from the spec: the [tube.User] record (declared in package
    [tube]).  "identity, usage (bytes currently stored),
    quota (computed limit, 0 = unlimited), storage-backend access token + its
    expiry", and the last-modified marker.  [uQuota] is what [u.CalcQuota()]
    returns. *)
Record User : Type := mkUser {
  uID : Z;
  uUsage : Z;
  uQuota : Z;
  uB2Token : string;
  uB2Expire : Z;
  uLastMod : Z
}.

Definition CalcQuota (u : User) : Z := uQuota u.

Definition zeroUser : User := mkUser 0 0 0 "" 0 0.

(** Modelled from the spec: the [tube.File] record (declared in package
    [tube]).  "identity, owning user
    id, display name, declared size, declared mime type, client-reported
    local-modification time, a deleted flag"; [fFinished] is the state of
    the record in "pending -> finished". *)
Record File : Type := mkFile {
  fID : string;
  fUserID : Z;
  fName : string;
  fSize : Z;
  fType : string;
  fLocalMod : Z;
  fDeleted : bool;
  fFinished : bool
}.

(** What [Head] reports of a stored object. *)
Record Object : Type := mkObject { oType : string; oSize : Z }.

(** Modelled from the spec: the artifact of the downstream processing,
    "derived from a finished File", "keyed by a batch identifier supplied by
    the caller". *)
Record Track : Type := mkTrack { tSource : string; tOwner : Z; tBatch : string }.

(** An element of the JSON array [uploadStart2] decodes. *)
Record Item : Type := mkItem {
  iName : string;
  iType : string;
  iSize : Z;
  iLocalMod : Z
}.

(** [meta] of [uploadStart2]. *)
Record Meta : Type := mkMeta { mID : string; mCD : string; mURL : string }.

(** The anonymous struct [uploadStart] encodes; the source never sets its
    [Token]. *)
Record StartAnswer : Type := mkStartAnswer {
  aID : string; aCD : string; aURL : string; aToken : string
}.

(** What a handler writes to the response: a text line, or a value handed
    to [encoding/json].  A JSON chunk stands for the value, not for its
    bytes: the encoder writes strings with invalid UTF-8 replaced and with
    the HTML-sensitive characters escaped. *)
Inductive Chunk : Type :=
| Line (s : string)
| JsonStart (a : StartAnswer)
| JsonBatch (l : list Meta)
| JsonTrack (t : Track).

Inductive Bucket : Type := UploadsBucket | FilesBucket.

(** The calls a handler makes to its collaborators, in the order made. *)
Inductive Event : Type :=
| EvCreate (f : File)
| EvGetFile (id : string)
| EvFinish (id : string) (type : string) (size : Z)
| EvExists (path : string) (found : bool)
| EvPresignPut (path : string) (size : Z) (disp : string)
| EvHead (path : string)
| EvDelete (b : Bucket) (path : string)
| EvHandleUpload (path : string) (uid : Z) (bid : string)
| EvUpdateLastMod (uid : Z)
| EvCreateB2Token (uid : Z)
| EvSetB2Token (uid : Z) (token : string) (expire : Z).

Record World : Type := mkWorld {
  w_now : Z;                          (* time.Now() *)
  w_files : gmap string File;         (* the File table *)
  w_users : gmap Z User;              (* the User table *)
  w_uploads : gmap string Object;     (* storage.UploadsBucket *)
  w_stored : gmap string Object;      (* storage.FilesBucket *)
  w_created : nat;                    (* identifiers handed out so far *)
  w_trace : list Event;
  w_stdout : list string
}.

(** What the collaborators answer.  [env_fault] lets any call fail, and
    [env_encode] lets [json.NewEncoder(w).Encode] fail on a value. *)
Record Env : Type := mkEnv {
  env_file_id : nat -> string;
  env_path : Z -> string -> string;
  env_presign_put : string -> Z -> string -> Error + string;
  env_create_token : Z -> Error + (string * Z);
  env_fault : Event -> option Error;
  env_encode : Chunk -> option Error
}.

Record Response : Type := mkResponse {
  status : option Z;
  headers : gmap string string;
  body : list Chunk
}.

Definition freshResponse : Response := mkResponse None ∅ [].

Record Request : Type := mkRequest {
  r_user : option User;               (* userFrom(ctx) *)
  r_form : gmap string string;        (* r.FormValue *)
  r_query : gmap string string;       (* r.URL.Query() *)
  r_params : gmap string string;      (* kami.Param *)
  r_body : Error + list Item          (* json.NewDecoder(r.Body).Decode *)
}.

Definition userFrom (r : Request) : User * bool :=
  match r_user r with
  | Some u => (u, true)
  | None => (zeroUser, false)
  end.

Definition FormValue (r : Request) (key : string) : string := default "" (r_form r !! key).
Definition QueryGet (r : Request) (key : string) : string := default "" (r_query r !! key).
Definition Param (r : Request) (key : string) : string := default "" (r_params r !! key).

(** ** The handler monad *)

Inductive PanicVal : Type :=
| PStr (msg : string)
| PErr (e : Error).

Inductive res (A : Type) : Type :=
| Val (a : A)
| Return
| Panic (v : PanicVal).
Arguments Val {A} a.
Arguments Return {A}.
Arguments Panic {A} v.

Record St : Type := mkSt { st_world : World; st_resp : Response }.

Definition M (A : Type) : Type := St -> res A * St.

#[global] Instance M_ret : MRet M := fun A a s => (Val a, s).
#[global] Instance M_bind : MBind M := fun A B f m s =>
  match m s with
  | (Val a, s') => f a s'
  | (Return, s') => (Return, s')
  | (Panic v, s') => (Panic v, s')
  end.

Definition panic {A} (v : PanicVal) : M A := fun s => (Panic v, s).
Definition return_ {A} : M A := fun s => (Return, s).
Definition getWorld : M World := fun s => (Val (st_world s), s).
Definition modWorld (f : World -> World) : M unit :=
  fun s => (Val tt, mkSt (f (st_world s)) (st_resp s)).
Definition modResp (f : Response -> Response) : M unit :=
  fun s => (Val tt, mkSt (st_world s) (f (st_resp s))).

Definition or_panic {A} (r : Error + A) : M A :=
  match r with
  | inl e => panic (PErr e)
  | inr a => mret a
  end.

Inductive Outcome : Type :=
| Returned
| Panicked (v : PanicVal).

(** Serve one request from a fresh response writer. *)
Definition outcome_of {A} (r : res A) : Outcome :=
  match r with
  | Panic v => Panicked v
  | _ => Returned
  end.

Definition serve (h : M unit) (w : World) : Outcome * World * Response :=
  let '(r, s) := h (mkSt w freshResponse) in
  (outcome_of r, st_world s, st_resp s).

(** *** World updates *)

Definition w_log (e : Event) (w : World) : World :=
  mkWorld (w_now w) (w_files w) (w_users w) (w_uploads w) (w_stored w)
          (w_created w) (w_trace w ++ [e]) (w_stdout w).
Definition w_set_files (fs : gmap string File) (w : World) : World :=
  mkWorld (w_now w) fs (w_users w) (w_uploads w) (w_stored w)
          (w_created w) (w_trace w) (w_stdout w).
Definition w_set_users (us : gmap Z User) (w : World) : World :=
  mkWorld (w_now w) (w_files w) us (w_uploads w) (w_stored w)
          (w_created w) (w_trace w) (w_stdout w).
Definition w_set_stored (b : gmap string Object) (w : World) : World :=
  mkWorld (w_now w) (w_files w) (w_users w) (w_uploads w) b
          (w_created w) (w_trace w) (w_stdout w).
Definition w_set_uploads (b : gmap string Object) (w : World) : World :=
  mkWorld (w_now w) (w_files w) (w_users w) b (w_stored w)
          (w_created w) (w_trace w) (w_stdout w).
Definition w_bump (w : World) : World :=
  mkWorld (w_now w) (w_files w) (w_users w) (w_uploads w) (w_stored w)
          (S (w_created w)) (w_trace w) (w_stdout w).
Definition w_print (s : string) (w : World) : World :=
  mkWorld (w_now w) (w_files w) (w_users w) (w_uploads w) (w_stored w)
          (w_created w) (w_trace w) (w_stdout w ++ [s]).

(** *** The response writer *)

(** [w.WriteHeader(code)]: only the first call counts. *)
Definition WriteHeader (code : Z) : M unit :=
  modResp (fun r =>
    mkResponse (match status r with Some c => Some c | None => Some code end)
               (headers r) (body r)).

(** [w.Header().Set(k, v)] *)
Definition SetHeader (k v : string) : M unit :=
  modResp (fun r => mkResponse (status r) (<[k := v]> (headers r)) (body r)).

(** [w.Write]: a first write without a status sends 200. *)
Definition respWrite (c : Chunk) : M unit :=
  modResp (fun r =>
    mkResponse (match status r with Some c => Some c | None => Some 200 end)
               (headers r) (body r ++ [c])).

(** [fmt.Fprintln(w, s)] *)
Definition Fprintln (s : string) : M unit := respWrite (Line s).

(** [fmt.Println(s)], to the standard output of the process. *)
Definition Println (s : string) : M unit := modWorld (w_print s).

(** ** Collaborators and handlers *)

Section Handlers.

Variable env : Env.

(** A call to a collaborator is recorded, then may fail. *)
Definition call (e : Event) : M (option Error) :=
  modWorld (w_log e) ;; mret (env_fault env e).

(** [json.NewEncoder(w).Encode(v)]: the value is written to the response,
    or the encoder returns an error.  (How much had reached the response when
    it failed is not modelled: the response is left as it was.) *)
Definition jsonEncode (c : Chunk) : M (option Error) :=
  match env_encode env c with
  | Some e => mret (Some e)
  | None => respWrite c ;; mret None
  end.

(** [if err := ...; err != nil { panic(err) }] *)
Definition panic_on (err : option Error) : M unit :=
  match err with
  | Some e => panic (PErr e)
  | None => mret tt
  end.

(** *** Storage buckets *)

Definition bucketExists (path : string) : M bool :=
  w ← getWorld;
  let found := bool_decide (is_Some (w_uploads w !! path)) in
  modWorld (w_log (EvExists path found)) ;; mret found.

Definition bucketPresignPut (path : string) (size : Z) (disp : string)
  : M (Error + string) :=
  modWorld (w_log (EvPresignPut path size disp)) ;;
  mret (env_presign_put env path size disp).

Definition bucketHead (path : string) : M (Error + Object) :=
  err ← call (EvHead path);
  w ← getWorld;
  mret (match err with
        | Some e => inl e
        | None => match w_uploads w !! path with
                  | Some o => inr o
                  | None => inl ErrNotFound
                  end
        end).

(** [storage.FilesBucket.Delete]; the source drops what it returns. *)
Definition bucketDelete (b : Bucket) (path : string) : M unit :=
  err ← call (EvDelete b path);
  match err with
  | Some _ => mret tt
  | None =>
      match b with
      | UploadsBucket => modWorld (fun w => w_set_uploads (delete path (w_uploads w)) w)
      | FilesBucket => modWorld (fun w => w_set_stored (delete path (w_stored w)) w)
      end
  end.

(** *** The record store (package [tube]) *)

(** Modelled from the spec: [File.Path], "a storage key/path derived
    deterministically from identity and owner". *)
Definition Path (f : File) : string := env_path env (fUserID f) (fID f).

(** Modelled from the spec: [tube.NewFile] makes the pending record, with a
    new identity and the declared size; nothing is stored yet. *)
Definition NewFile (uid : Z) (name : string) (size : Z) : M File :=
  w ← getWorld;
  modWorld w_bump ;;
  mret (mkFile (env_file_id env (w_created w)) uid name size "" 0 false false).

Definition withTypeMod (f : File) (type : string) (localMod : Z) : File :=
  mkFile (fID f) (fUserID f) (fName f) (fSize f) type localMod
         (fDeleted f) (fFinished f).

(** Modelled from the spec: [File.Create] stores the pending record. *)
Definition Create (f : File) : M (option Error) :=
  err ← call (EvCreate f);
  match err with
  | Some e => mret (Some e)
  | None => modWorld (fun w => w_set_files (<[fID f := f]> (w_files w)) w) ;; mret None
  end.

(** Modelled from the spec: [tube.GetFile] resolves the record by id. *)
Definition GetFile (id : string) : M (Error + File) :=
  err ← call (EvGetFile id);
  w ← getWorld;
  mret (match err with
        | Some e => inl e
        | None => match w_files w !! id with
                  | Some f => inr f
                  | None => inl ErrNotFound
                  end
        end).

Definition finished (f : File) (type : string) (size : Z) : File :=
  mkFile (fID f) (fUserID f) (fName f) size type (fLocalMod f) (fDeleted f) true.

(** Modelled from the spec: [File.Finish], "transition the record to
    finished, overwriting declared size/type with observed values". *)
Definition Finish (f : File) (type : string) (size : Z) : M (option Error) :=
  err ← call (EvFinish (fID f) type size);
  match err with
  | Some e => mret (Some e)
  | None =>
      modWorld (fun w => w_set_files (<[fID f := finished f type size]> (w_files w)) w) ;;
      mret None
  end.

Definition addUsage (n : Z) (u : User) : User :=
  mkUser (uID u) (uUsage u + n) (uQuota u) (uB2Token u) (uB2Expire u) (uLastMod u).

(** Modelled from the spec: [handleUpload] (defined in another file of the
    package), "trigger downstream processing that turns the finished File
    into a Track, keyed by a batch identifier supplied by the caller" and
    "update the user's usage by the observed size".  It is given the upload
    path, not a size: the observed size is that of the object stored
    there. *)
Definition handleUpload (path : string) (u : User) (bID : string) : M (Error + Track) :=
  err ← call (EvHandleUpload path (uID u) bID);
  w ← getWorld;
  match err with
  | Some e => mret (inl e)
  | None =>
      match w_uploads w !! path, w_users w !! uID u with
      | Some o, Some stored =>
          modWorld (w_set_users (<[uID u := addUsage (oSize o) stored]> (w_users w))) ;;
          mret (inr (mkTrack path (uID u) bID))
      | _, _ => mret (inl ErrNotFound)
      end
  end.

Definition touch (now : Z) (u : User) : User :=
  mkUser (uID u) (uUsage u) (uQuota u) (uB2Token u) (uB2Expire u) now.

(** Modelled from the spec: [User.UpdateLastMod], "update the user's
    last-modified marker". *)
Definition UpdateLastMod (u : User) : M (option Error) :=
  err ← call (EvUpdateLastMod (uID u));
  match err with
  | Some e => mret (Some e)
  | None =>
      modWorld (fun w => w_set_users (alter (touch (w_now w)) (uID u) (w_users w)) w) ;;
      mret None
  end.

(** *** The storage backend's tokens *)

(** [createB2Token] (defined in another file of the package): "requests a
    new token+expiry from the storage backend keyed by user identity". *)
Definition createB2Token (uid : Z) : M (Error + (string * Z)) :=
  err ← call (EvCreateB2Token uid);
  mret (match err with
        | Some e => inl e
        | None => env_create_token env uid
        end).

Definition withToken (token : string) (expire : Z) (u : User) : User :=
  mkUser (uID u) (uUsage u) (uQuota u) token expire (uLastMod u).

(** Modelled from the spec: [User.SetB2Token] "persists both fields on the
    user record"; the receiver is a pointer, so the caller's [u] carries
    them too. *)
Definition SetB2Token (u : User) (token : string) (expire : Z)
  : M (option Error * User) :=
  err ← call (EvSetB2Token (uID u) token expire);
  match err with
  | Some e => mret (Some e, u)
  | None =>
      modWorld (fun w => w_set_users (alter (withToken token expire) (uID u) (w_users w)) w) ;;
      mret (None, withToken token expire u)
  end.

(** [refreshB2Token(ctx, u, fudge)]: the error returned and [*u] afterwards.
    Instants are integers on one time line, in the unit of [time.Duration];
    [fudge] is a [time.Duration], an [int64], so [-fudge] is [neg64 fudge].
    ([Time.Add] itself does not wrap: the clock is far from the ends of the
    range of [time.Time].) *)
Definition refreshB2Token (u : User) (fudge : Z) : M (option Error * User) :=
  w ← getWorld;
  let now := w_now w + neg64 fudge in
  if negb (String.eqb (uB2Token u) "") && (now <? uB2Expire u) then
    mret (None, u)
  else
    r ← createB2Token (uID u);
    match r with
    | inl err => mret (Some err, u)
    | inr (token, expire) =>
        r ← SetB2Token u token expire;
        match r with
        | (Some err, u') => mret (Some err, u')
        | (None, u') => mret (None, u')
        end
    end.

(** *** Upload start *)

Definition tooBigMessage : string :=
  "file too big. max size is " +:+ FormatInt (Z.quot (Z.quot maxFileSize 1000) 1000) +:+ "MB".

Definition uploadStart (r : Request) : M unit :=
  let u := fst (userFrom r) in
  let name := FormValue r "name" in
  let filetype := FormValue r "type" in
  match GoLib.ParseInt (FormValue r "size") with
  | None => panic (PErr (ErrMsg "strconv.ParseInt"))
  | Some size =>
      if size =? 0 then panic (PStr "missing file size")
      else
        let localMod :=
          match GoLib.ParseInt (FormValue r "lastmod") with
          | Some msec => msec
          | None => 0
          end in
        SetHeader "Tube-Upload-Usage" (FormatInt (uUsage u)) ;;
        SetHeader "Tube-Upload-Quota" (FormatInt (CalcQuota u)) ;;
        if size >? maxFileSize then
          WriteHeader 400 ;; Fprintln tooBigMessage ;; return_
        else if negb (CalcQuota u =? 0) && (add64 (uUsage u) size >? CalcQuota u) then
          WriteHeader 400 ;; Fprintln "upload quota exceeded" ;; return_
        else
          zf ← NewFile (uID u) name size;
          let zf := withTypeMod zf filetype localMod in
          err ← Create zf;
          match err with
          | Some e => panic (PErr e)
          | None =>
              found ← bucketExists (Path zf);
              if (found : bool) then panic (PStr "already exists?!")
              else
                let disp := encodeContentDisp name in
                url ← bucketPresignPut (Path zf) size disp ≫= or_panic;
                SetHeader "Tube-Upload-ID" (fID zf) ;;
                SetHeader "Content-Type" "application/json" ;;
                WriteHeader 200 ;;
                jsonEncode (JsonStart (mkStartAnswer (fID zf) disp url "")) ≫= panic_on
          end
  end.

(** The [for _, f := range input] loop of [uploadStart2], with its two
    accumulators. *)
Fixpoint start2_loop (u : User) (input : list Item) (totalsize : Z)
         (output : list Meta) : M (Z * list Meta) :=
  match input with
  | [] => mret (totalsize, output)
  | f :: rest =>
      if iSize f =? 0 then panic (PStr "missing file size")
      else if iSize f >? maxFileSize then
        WriteHeader 400 ;; Fprintln tooBigMessage ;; return_
      else
        let totalsize := add64 totalsize (iSize f) in
        zf ← NewFile (uID u) (iName f) (iSize f);
        let zf := withTypeMod zf (iType f) (iLocalMod f) in
        err ← Create zf;
        match err with
        | Some e => panic (PErr e)
        | None =>
            found ← bucketExists (Path zf);
            if (found : bool) then panic (PStr ("already exists?! " +:+ fID zf))
            else
              let disp := encodeContentDisp (iName f) in
              url ← bucketPresignPut (Path zf) (iSize f) disp ≫= or_panic;
              start2_loop u rest totalsize (output ++ [mkMeta (fID zf) disp url])
        end
  end.

Definition uploadStart2 (r : Request) : M unit :=
  let u := fst (userFrom r) in
  input ← or_panic (r_body r);
  '(totalsize, output) ← start2_loop u input 0 [];
  (let quota := CalcQuota u in
   if negb (quota =? 0) && (add64 (uUsage u) totalsize >? quota) then
     WriteHeader 400 ;; Fprintln "would exceed upload quota" ;; return_
   else mret tt) ;;
  SetHeader "Content-Type" "application/json" ;;
  SetHeader "Tube-Upload-Usage" (FormatInt (uUsage u)) ;;
  SetHeader "Tube-Upload-Quota" (FormatInt (CalcQuota u)) ;;
  WriteHeader 200 ;;
  jsonEncode (JsonBatch output) ≫= panic_on.

(** *** Upload finish *)

Definition uploadFinish (r : Request) : M unit :=
  let '(u, ok) := userFrom r in
  if negb ok then panic (PStr "no account")
  else
    let bID := QueryGet r "bid" in
    if String.eqb bID "" then panic (PStr "no bid")
    else
      let id := Param r "id" in
      f ← GetFile id ≫= or_panic;
      if fDeleted f || negb (fUserID f =? uID u) then
        WriteHeader 403 ;; Println "nope" ;; return_
      else
        head ← bucketHead (Path f) ≫= or_panic;
        err ← Finish f (oType head) (oSize head);
        match err with
        | Some e => panic (PErr e)
        | None =>
            (if oSize head >? maxFileSize then
               bucketDelete FilesBucket (Path f) ;;
               WriteHeader 400 ;;
               Println "nice try. file too big."
             else mret tt) ;;
            track ← handleUpload (Path f) u bID ≫= or_panic;
            err ← UpdateLastMod u;
            match err with
            | Some e => panic (PErr e)
            | None => jsonEncode (JsonTrack track) ≫= panic_on
            end
        end.

End Handlers.

(** ** What the statements below speak of *)

(** The handler returned and the response carries status [code]. *)
Definition responds (code : Z) (run : Outcome * World * Response) : Prop :=
  let '(out, _, resp) := run in out = Returned /\ status resp = Some code.

(** The records, the users and both buckets are as they were. *)
Definition same_stores (w w' : World) : Prop :=
  w_files w' = w_files w /\ w_users w' = w_users w /\
  w_uploads w' = w_uploads w /\ w_stored w' = w_stored w.

(** The bytes allowed in the extended value: letters, digits, the four
    unreserved marks and the percent sign. *)
Definition ext_value_byte (c : ascii) : bool :=
  GoLib.is_alnum c || GoLib.byte_eqb c "-" || GoLib.byte_eqb c "_"
  || GoLib.byte_eqb c "." || GoLib.byte_eqb c "~" || GoLib.byte_eqb c "%".

Fixpoint all_bytes (p : ascii -> bool) (s : string) : bool :=
  match s with
  | EmptyString => true
  | String c t => p c && all_bytes p t
  end.







(** Every presigned PUT of a trace follows, with nothing in between, the
    check that found no object at the same path.  [prev] is the call made
    just before the trace. *)
Fixpoint presign_guarded (prev : option Event) (tr : list Event) : Prop :=
  match tr with
  | [] => True
  | e :: tr' =>
      match e with
      | EvPresignPut p _ _ => prev = Some (EvExists p false)
      | _ => True
      end /\ presign_guarded (Some e) tr'
  end.

(** What a run that went from [w] to [w'] with outcome [out] and made the
    calls [evs] must satisfy: the uploads bucket is as it was; every presigned
    PUT directly follows the check that found its path free, and its path
    holds no object; every check reports whether the bucket holds an object
    at the path; a check that found an object ended the run with the
    "already exists?!" panic. *)
Definition guarded_run (w w' : World) (out : Outcome) (evs : list Event) : Prop :=
  w_trace w' = w_trace w ++ evs
  /\ w_uploads w' = w_uploads w
  /\ (forall prev, presign_guarded prev evs)
  /\ (forall p sz d, In (EvPresignPut p sz d) evs -> w_uploads w !! p = None)
  /\ (forall p found, In (EvExists p found) evs ->
        found = bool_decide (is_Some (w_uploads w !! p)))
  /\ (forall p, In (EvExists p true) evs ->
        exists rest, out = Panicked (PStr ("already exists?!" +:+ rest))).

(** Whether the stored token is still usable: [now - margin < expiry]. *)
Definition token_usable (now margin : Z) (u : User) : Prop :=
  uB2Token u <> "" /\ now - margin < uB2Expire u.

(** What the backend answers when asked for a token. *)
Definition backend_answer (env : Env) (uid : Z) : Error + (string * Z) :=
  match env_fault env (EvCreateB2Token uid) with
  | Some e => inl e
  | None => env_create_token env uid
  end.

(** ** A small deployment to run the handlers on *)

Module Demo.

Definition env : Env :=
  mkEnv (fun n => "f" +:+ pretty n)
        (fun _ id => "up/" +:+ id)
        (fun path _ _ => inr ("https://put/" +:+ path))
        (fun _ => inr ("tok2", 9000))
        (fun _ => None)
        (fun _ => None).

(** quota 1,000,000, usage 900,000; a token that expires at 5000 *)
Definition alice : User := mkUser 7 900000 1000000 "tok1" 5000 0.

Definition world0 : World :=
  mkWorld 1000 ∅ {[ 7 := alice ]} ∅ ∅ 0 [] [].

Definition startReq (size : string) : Request :=
  mkRequest (Some alice) {[ "name" := "a b.mp3"; "type" := "audio/mpeg"; "size" := size ]}
            ∅ ∅ (inl (ErrMsg "EOF")).

Definition batchReq (items : list Item) : Request :=
  mkRequest (Some alice) ∅ ∅ ∅ (inr items).

Definition song (size : Z) : Item := mkItem "a b.mp3" "audio/mpeg" size 0.

(** A pending record of [alice], one of somebody else, a deleted one. *)
Definition pending : File := mkFile "f0" 7 "a b.mp3" 1000 "audio/mpeg" 0 false false.
Definition foreign : File := mkFile "f1" 8 "x.mp3" 1000 "audio/mpeg" 0 false false.
Definition removed : File := mkFile "f2" 7 "y.mp3" 1000 "audio/mpeg" 0 true false.

(** The world after a client has put an object of [size] bytes at the
    upload path of [pending]. *)
Definition uploaded (type : string) (size : Z) : World :=
  mkWorld 1000 {[ "f0" := pending; "f1" := foreign; "f2" := removed ]}
          {[ 7 := alice ]} {[ "up/f0" := mkObject type size ]} ∅ 3 [] [].


Definition finishReq (id bid : string) : Request :=
  mkRequest (Some alice) ∅ {[ "bid" := bid ]} {[ "id" := id ]} (inl (ErrMsg "EOF")).

End Demo.

(** ** The download id and the delete handler *)

(** Lines 96 to 99 of [downloadTrack]: the [id] parameter without the
    extension [path.Ext] finds in it, [id[:len(id)-len(ext)]]. *)
Definition trackID (id : string) : string :=
  let ext := GoLib.Ext id in
  if negb (String.eqb ext "")
  then String.substring 0 (String.length id - String.length ext) id
  else id.

Section Pages.

Variable env : Env.

(** [File.Delete] is defined in package [tube], [Domain] in another file of
    the package and [http.Redirect] in [net/http]; they are parameters here.
    [redirect url code] stands for [http.Redirect(w, r, url, code)]. *)
Variable fileDelete : File -> M (option Error).
Variable Domain : string.
Variable redirect : string -> Z -> M unit.

Definition DeleteFile (r : Request) : M unit :=
  let u := fst (userFrom r) in
  let id := Param r "id" in
  f ← GetFile env id ≫= or_panic;
  if negb (fUserID f =? uID u) then
    WriteHeader 403 ;; Fprintln "Forbidden" ;; return_
  else
    err ← fileDelete f;
    match err with
    | Some e => panic (PErr e)
    | None => redirect ("//" +:+ Domain +:+ "/account/files") 303
    end.

End Pages.

(** ** More vocabulary for the statements *)


(** The table of records is keyed by the records' own ids. *)
Definition keyed_by_id (fs : gmap string File) : Prop :=
  forall id f, fs !! id = Some f -> fID f = id.

(** A byte that is neither a dot nor a slash. *)
Definition plain_byte (c : ascii) : bool :=
  negb (GoLib.byte_eqb c "." || GoLib.byte_eqb c "/").

(** The bytes [url.QueryEscape] leaves as they are. *)
Definition unreserved_byte (c : ascii) : bool :=
  GoLib.is_alnum c || GoLib.byte_eqb c "-" || GoLib.byte_eqb c "_"
  || GoLib.byte_eqb c "." || GoLib.byte_eqb c "~".

Fixpoint has_byte (c : ascii) (s : string) : bool :=
  match s with
  | EmptyString => false
  | String a t => GoLib.byte_eqb a c || has_byte c t
  end.

(** What follows the last [c] of [s] ([s] itself when it has none). *)
Fixpoint after_last (c : ascii) (s : string) : string :=
  match s with
  | EmptyString => ""
  | String a t =>
      if has_byte c t then after_last c t
      else if GoLib.byte_eqb a c then t else s
  end.

(** How a client reads the extended parameter out of the whole header value
    (RFC 5987: charset, apostrophe, language, apostrophe, percent-encoded
    value; the value holds no apostrophe).  Not part of the source. *)
Definition header_filename (h : string) : option string :=
  PercentDecode.pct_decode (after_last "'" h).

(** [totalsize] after the loop of [uploadStart2]. *)
Definition total64 (input : list Item) (start : Z) : Z :=
  fold_left (fun acc f => add64 acc (iSize f)) input start.

(** The ids [tube.NewFile] hands out to [n] records from the [k]-th on. *)
Definition fresh_ids (env : Env) (k n : nat) : list string :=
  map (env_file_id env) (seq k n).

(** The pending record an upload-start stores for one file: what
    [tube.NewFile] made, with the declared type and modification time. *)
Definition newRecord (env : Env) (w : World) (u : User) (name : string)
           (size : Z) (type : string) (localMod : Z) : File :=
  withTypeMod (mkFile (env_file_id env (w_created w)) (uID u) name size "" 0 false false)
              type localMod.

(** [lastmod] as [uploadStart] reads it: 0 when it does not parse. *)
Definition formLastMod (r : Request) : Z :=
  match GoLib.ParseInt (FormValue r "lastmod") with
  | Some msec => msec
  | None => 0
  end.

(** What an upload-start by [u] may have done to the world: the users, the
    files bucket, the clock and the standard output are as they were, and
    every record that was not there before is a pending record of [u] with a
    declared size that is not zero and not above the maximum. *)
Definition start_footprint (u : User) (w w' : World) : Prop :=
  w_users w' = w_users w
  /\ w_stored w' = w_stored w
  /\ w_now w' = w_now w
  /\ w_stdout w' = w_stdout w
  /\ (w_created w <= w_created w')%nat
  /\ forall id f,
       w_files w' !! id = Some f ->
       w_files w !! id = Some f
       \/ (fUserID f = uID u /\ fDeleted f = false /\ fFinished f = false
           /\ fSize f <> 0 /\ fSize f <= maxFileSize).




(** The client's transfer between start and finish: an object lands in the
    uploads bucket. *)
Definition clientPut (path : string) (o : Object) (w : World) : World :=
  w_set_uploads (<[path := o]> (w_uploads w)) w.

(** Run a handler symbolically: unfold the monad and the collaborators, and
    stop at the tests on values that are not known yet. *)
Ltac mrun :=
  cbv beta iota zeta delta
    [mbind M_bind mret M_ret panic return_ getWorld modWorld modResp or_panic
     call bucketExists bucketPresignPut bucketHead bucketDelete NewFile Create
     GetFile Finish handleUpload UpdateLastMod createB2Token SetB2Token
     WriteHeader SetHeader respWrite Fprintln Println jsonEncode panic_on];
  cbn [st_world st_resp fst snd].

Ltac mrun_in H :=
  cbv beta iota zeta delta
    [mbind M_bind mret M_ret panic return_ getWorld modWorld modResp or_panic
     call bucketExists bucketPresignPut bucketHead bucketDelete NewFile Create
     GetFile Finish handleUpload UpdateLastMod createB2Token SetB2Token
     WriteHeader SetHeader respWrite Fprintln Println jsonEncode panic_on] in H;
  cbn [st_world st_resp fst snd status headers body
       w_now w_files w_users w_uploads w_stored w_created w_trace w_stdout
       w_log w_set_files w_set_users w_set_stored w_set_uploads w_bump w_print] in H.



(** * Properties *)

Example ext_flac : GoLib.Ext "a/b.c/song.flac" = ".flac".
Proof. reflexivity. Qed.

Example ext_none : GoLib.Ext "a.b/song" = "".
Proof. reflexivity. Qed.

Example esc_demo : escaped_name "a b+c.mp3" = "a%20b%2Bc.mp3".
Proof. reflexivity. Qed.

Example parse_demo :
  GoLib.ParseInt "-0" = Some 0 /\ GoLib.ParseInt "12a" = None
  /\ GoLib.ParseInt "9223372036854775808" = None
  /\ GoLib.ParseInt "-9223372036854775808" = Some (- 2 ^ 63).
Proof. repeat split; reflexivity. Qed.

(** ** The content-disposition encoder *)

Section Encoder.

Import GoLib PercentDecode.

Lemma replace_plus_cons (c : ascii) (t : string) :
  replace_from "+" "%20" (String c t) 0 =
  (if byte_eqb c "+" then "%20" else String c "") +:+ replace_from "+" "%20" t 0.
Proof.
  cbn [replace_from String.prefix String.length Nat.sub].
  unfold byte_eqb. rewrite Ascii.eqb_sym.
  destruct (ascii_dec "+" c) as [<- | Hne].
  - destruct t; reflexivity.
  - apply Ascii.eqb_neq in Hne. rewrite Hne. reflexivity.
Qed.

Lemma replace_plus_app (a b : string) :
  replace_from "+" "%20" (a +:+ b) 0 =
  replace_from "+" "%20" a 0 +:+ replace_from "+" "%20" b 0.
Proof.
  induction a as [| c a IH].
  - reflexivity.
  - change (String c a +:+ b) with (String c (a +:+ b)).
    rewrite !replace_plus_cons, IH.
    destruct (byte_eqb c "+"); reflexivity.
Qed.

(** What a client decodes from the escape of one byte, whatever follows. *)
Lemma decode_escape_byte (c : ascii) (r : string) :
  pct_decode (replace_from "+" "%20" (escape_byte c) 0 +:+ r) =
  match pct_decode r with
  | Some x => Some (String c x)
  | None => None
  end.
Proof.
  destruct c as [[] [] [] [] [] [] [] []]; reflexivity.
Qed.

Lemma escaped_name_cons (c : ascii) (t : string) :
  escaped_name (String c t) =
  replace_from "+" "%20" (escape_byte c) 0 +:+ escaped_name t.
Proof.
  unfold escaped_name, ReplaceAll. cbn [QueryEscape].
  apply replace_plus_app.
Qed.

Lemma escaped_name_decodes (filename : string) :
  pct_decode (escaped_name filename) = Some filename.
Proof.
  induction filename as [| c t IH].
  - reflexivity.
  - rewrite escaped_name_cons, decode_escape_byte, IH. reflexivity.
Qed.

Lemma all_bytes_app (p : ascii -> bool) (a b : string) :
  all_bytes p (a +:+ b) = all_bytes p a && all_bytes p b.
Proof.
  induction a as [| c a IH]; [reflexivity |].
  change (String c a +:+ b) with (String c (a +:+ b)).
  cbn [all_bytes]. rewrite IH. apply andb_assoc.
Qed.

Lemma escape_byte_safe (c : ascii) :
  all_bytes ext_value_byte (replace_from "+" "%20" (escape_byte c) 0) = true.
Proof.
  destruct c as [[] [] [] [] [] [] [] []]; reflexivity.
Qed.

Lemma escaped_name_safe (filename : string) :
  all_bytes ext_value_byte (escaped_name filename) = true.
Proof.
  induction filename as [| c t IH]; [reflexivity |].
  rewrite escaped_name_cons, all_bytes_app, escape_byte_safe, IH. reflexivity.
Qed.

Lemma string_app_nil_r (s : string) : s +:+ "" = s.
Proof.
  induction s as [| c s IH]; [reflexivity |].
  change (String c s +:+ "") with (String c (s +:+ "")). f_equal. exact IH.
Qed.

Lemma substring_whole (s : string) : String.substring 0 (String.length s) s = s.
Proof.
  induction s as [| c s IH]; [reflexivity |].
  change (String c (String.substring 0 (String.length s) s) = String c s).
  f_equal. exact IH.
Qed.

Lemma substring_split (s : string) :
  forall i : nat, (i <= String.length s)%nat ->
    String.substring 0 i s +:+ slice_from i s = s.
Proof.
  unfold slice_from. induction s as [| c s IH]; intros i Hi.
  - destruct i; reflexivity.
  - destruct i as [| i].
    + change (String c (String.substring 0 (String.length s) s) = String c s).
      f_equal. apply substring_whole.
    + cbn [String.length] in Hi.
      change (String c (String.substring 0 i s
                        +:+ String.substring i (String.length s - i) s) = String c s).
      f_equal. apply IH. lia.
Qed.

Lemma get_in_range (s : string) :
  forall (i : nat) (c : ascii), String.get i s = Some c -> (i < String.length s)%nat.
Proof.
  induction s as [| a s IH]; intros i c H.
  - destruct i; discriminate H.
  - destruct i as [| i]; cbn in *; [lia |]. apply IH in H. lia.
Qed.

(** What [path.Ext] returns is the end of the path. *)
Lemma Ext_is_suffix (path : string) : exists stem, path = stem +:+ Ext path.
Proof.
  unfold Ext. generalize (String.length path) as n.
  induction n as [| i IH]; cbn [ext_loop].
  - exists path. symmetry. apply string_app_nil_r.
  - destruct (String.get i path) as [c |] eqn:Hget.
    + destruct (byte_eqb c "/").
      * exists path. symmetry. apply string_app_nil_r.
      * destruct (byte_eqb c ".").
        -- exists (String.substring 0 i path). symmetry. apply substring_split.
           apply get_in_range in Hget. lia.
        -- exact IH.
    + exists path. symmetry. apply string_app_nil_r.
Qed.

Example encode_space_and_utf8 :
  let name := "a " +:+ String "195" (String "169" ".mp3") in
  encodeContentDisp name =
    "attachment; filename=" +:+ dquote +:+ "file.mp3" +:+ dquote
      +:+ "; filename*=UTF-8''a%20%C3%A9.mp3"
  /\ pct_decode "a%20%C3%A9.mp3" = Some name.
Proof. split; reflexivity. Qed.

End Encoder.

(** ** Guards of the handlers *)

(** C10.  An upload-finish call whose [bid] query parameter is absent or
    empty panics (with "no bid", or with "no account" when the context holds
    no user) in the world it started from: no record was resolved and no
    collaborator was called, so the trace, the records, the users and the
    buckets are untouched and nothing was written to the response. *)
Theorem uploadFinish_no_bid (env : Env) (r : Request) (w : World) :
  QueryGet r "bid" = "" ->
  serve (uploadFinish env r) w =
    (Panicked (PStr (match r_user r with Some _ => "no bid" | None => "no account" end)),
     w, freshResponse).
Proof.
  intros Hbid. unfold serve, uploadFinish, userFrom.
  destruct (r_user r) as [u |]; cbn.
  - rewrite Hbid. reflexivity.
  - reflexivity.
Qed.

Lemma uploadFinish_no_bid_witness :
  serve (uploadFinish Demo.env (Demo.finishReq "f0" "")) (Demo.uploaded "audio/flac" 10) =
    (Panicked (PStr "no bid"), Demo.uploaded "audio/flac" 10, freshResponse).
Proof.
  apply (uploadFinish_no_bid Demo.env (Demo.finishReq "f0" "")).
  vm_compute. reflexivity.
Defined.

(** C5, as the code has it.  A single upload-start whose declared size parses
    to zero panics with "missing file size": the request is aborted, not
    answered with status 400.  The world and the response are as before: no
    record was created, no presigned URL was asked for, no header was set. *)
Theorem uploadStart_zero_size (env : Env) (r : Request) (w : World) :
  GoLib.ParseInt (FormValue r "size") = Some 0 ->
  serve (uploadStart env r) w = (Panicked (PStr "missing file size"), w, freshResponse).
Proof.
  intros Hsize. unfold serve, uploadStart. rewrite Hsize. reflexivity.
Qed.

Lemma uploadStart_zero_size_witness :
  serve (uploadStart Demo.env (Demo.startReq "0")) Demo.world0 =
    (Panicked (PStr "missing file size"), Demo.world0, freshResponse).
Proof.
  apply (uploadStart_zero_size Demo.env (Demo.startReq "0")).
  vm_compute. reflexivity.
Defined.

(** C5, as stated, fails: with the declared size "0" the handler does not
    answer 400. *)
Lemma uploadStart_zero_size_not_400 :
  GoLib.ParseInt (FormValue (Demo.startReq "0") "size") = Some 0 /\
  ~ responds 400 (serve (uploadStart Demo.env (Demo.startReq "0")) Demo.world0).
Proof.
  split; [vm_compute; reflexivity |].
  vm_compute. intros [H _]. discriminate H.
Qed.

(** C6, as the code has it.  For a caller [u] and a non-empty [bid]: when no
    record has the given id the handler panics with the error of the lookup
    ([ErrNotFound] when the lookup itself worked), it does not answer 404;
    when the lookup returns a record that is deleted or owned by another user
    the answer is 403.  In both cases the only call made is the lookup, and
    the records, the users and the buckets are untouched. *)
Theorem uploadFinish_guard (env : Env) (r : Request) (w : World) (u : User) :
  r_user r = Some u ->
  QueryGet r "bid" <> "" ->
  let id := Param r "id" in
  (w_files w !! id = None ->
   exists e,
     serve (uploadFinish env r) w =
       (Panicked (PErr e), w_log (EvGetFile id) w, freshResponse)
     /\ (env_fault env (EvGetFile id) = None -> e = ErrNotFound)
     /\ same_stores w (w_log (EvGetFile id) w))
  /\ (forall f,
        env_fault env (EvGetFile id) = None ->
        w_files w !! id = Some f ->
        fDeleted f = true \/ fUserID f <> uID u ->
        exists w' resp,
          serve (uploadFinish env r) w = (Returned, w', resp)
          /\ status resp = Some 403
          /\ same_stores w w'
          /\ w_trace w' = w_trace w ++ [EvGetFile id]).
Proof.
  intros Hu Hbid id.
  assert (Hb : String.eqb (QueryGet r "bid") "" = false)
    by (apply String.eqb_neq; exact Hbid).
  split.
  - intros Hnone.
    exists (match env_fault env (EvGetFile id) with Some e => e | None => ErrNotFound end).
    split; [| split].
    + unfold serve, uploadFinish, userFrom. rewrite Hu. cbn. rewrite Hb.
      mrun. fold id. cbn [w_log w_files]. rewrite Hnone.
      destruct (env_fault env (EvGetFile id)); reflexivity.
    + intros ->. reflexivity.
    + repeat split.
  - intros f Hfault Hsome Hbad.
    assert (Hguard : fDeleted f || negb (fUserID f =? uID u) = true).
    { destruct Hbad as [-> | Hne]; [reflexivity |].
      apply orb_true_iff. right. apply negb_true_iff, Z.eqb_neq. exact Hne. }
    eexists _, _. split; [| split; [| split]].
    + unfold serve, uploadFinish, userFrom. rewrite Hu. cbn. rewrite Hb.
      mrun. fold id. cbn [w_log w_files]. rewrite Hfault, Hsome. mrun.
      rewrite Hguard. reflexivity.
    + reflexivity.
    + repeat split.
    + reflexivity.
Qed.

Lemma uploadFinish_guard_witness :
  let env := Demo.env in
  let w := Demo.uploaded "audio/flac" 10 in
  (* an id no record has *)
  (r_user (Demo.finishReq "nope" "b1") = Some Demo.alice
   /\ QueryGet (Demo.finishReq "nope" "b1") "bid" <> ""
   /\ w_files w !! "nope" = None
   /\ exists e,
        serve (uploadFinish env (Demo.finishReq "nope" "b1")) w =
          (Panicked (PErr e), w_log (EvGetFile "nope") w, freshResponse)
        /\ (env_fault env (EvGetFile "nope") = None -> e = ErrNotFound)
        /\ same_stores w (w_log (EvGetFile "nope") w))
  /\
  (* the record of somebody else *)
  (w_files w !! "f1" = Some Demo.foreign
   /\ fUserID Demo.foreign <> uID Demo.alice
   /\ exists w' resp,
        serve (uploadFinish env (Demo.finishReq "f1" "b1")) w = (Returned, w', resp)
        /\ status resp = Some 403
        /\ same_stores w w'
        /\ w_trace w' = w_trace w ++ [EvGetFile "f1"]).
Proof.
  intros env w.
  assert (Hbid : forall id, QueryGet (Demo.finishReq id "b1") "bid" <> "")
    by (intros id; vm_compute; discriminate).
  split.
  - split; [reflexivity |]. split; [apply Hbid |].
    assert (Hnone : w_files w !! "nope" = None) by (vm_compute; reflexivity).
    split; [exact Hnone |].
    exact (proj1 (uploadFinish_guard env (Demo.finishReq "nope" "b1") w Demo.alice
                    eq_refl (Hbid "nope")) Hnone).
  - assert (Hsome : w_files w !! "f1" = Some Demo.foreign) by (vm_compute; reflexivity).
    assert (Hne : fUserID Demo.foreign <> uID Demo.alice) by (vm_compute; discriminate).
    split; [exact Hsome |]. split; [exact Hne |].
    exact (proj2 (uploadFinish_guard env (Demo.finishReq "f1" "b1") w Demo.alice
                    eq_refl (Hbid "f1")) Demo.foreign eq_refl Hsome (or_intror Hne)).
Defined.

(** C6, as stated, fails twice: a finish call for an id that no record has
    panics with the lookup's error instead of answering 404, and a finish
    call for a deleted record with an empty [bid] panics before the record is
    looked at instead of answering 403. *)
Lemma uploadFinish_missing_not_404 :
  (w_files (Demo.uploaded "audio/flac" 10) !! "nope" = None /\
   serve (uploadFinish Demo.env (Demo.finishReq "nope" "b1")) (Demo.uploaded "audio/flac" 10)
     = (Panicked (PErr ErrNotFound),
        w_log (EvGetFile "nope") (Demo.uploaded "audio/flac" 10), freshResponse) /\
   ~ responds 404
       (serve (uploadFinish Demo.env (Demo.finishReq "nope" "b1"))
              (Demo.uploaded "audio/flac" 10)))
  /\
  (fDeleted <$> w_files (Demo.uploaded "audio/flac" 10) !! "f2" = Some true /\
   ~ responds 403
       (serve (uploadFinish Demo.env (Demo.finishReq "f2" ""))
              (Demo.uploaded "audio/flac" 10))).
Proof.
  split; [split; [| split] | split].
  - vm_compute. reflexivity.
  - vm_compute. reflexivity.
  - vm_compute. intros [H _]. discriminate H.
  - vm_compute. reflexivity.
  - vm_compute. intros [H _]. discriminate H.
Qed.

(** ** The token refresher *)

(** Negating a duration other than the least [int64] does not wrap. *)
Lemma neg64_exact (m : Z) : - 2 ^ 63 < m < 2 ^ 63 -> neg64 m = - m.
Proof.
  intros Hm. unfold neg64, wrap64.
  rewrite Z.mod_small by lia. lia.
Qed.

Lemma token_usable_test (now m : Z) (u : User) :
  - 2 ^ 63 < m < 2 ^ 63 ->
  negb (String.eqb (uB2Token u) "") && (now + neg64 m <? uB2Expire u) = true
  <-> token_usable now m u.
Proof.
  intros Hm. unfold token_usable. rewrite (neg64_exact m Hm).
  rewrite andb_true_iff, negb_true_iff, String.eqb_neq, Z.ltb_lt.
  split; intros [H1 H2]; split; try exact H1; lia.
Qed.

(** C8.  With [now] the clock of the world, user [u] and a margin [m] that
    is a [time.Duration] other than the least one (whose negation wraps):
    when the stored token is present and [now - m] is before its expiry, the
    call returns no error and leaves [u] and the whole world as they were (no
    call to the backend is traced).  Otherwise the backend is asked for a
    token: its error, if any, is returned as it is with [u] unchanged; its
    token and expiry are handed to [SetB2Token], whose error, if any, is
    returned as it is; and when both worked the call returns no error, [u]
    and the stored user record carry the new token and expiry. *)
Theorem refreshB2Token_spec (env : Env) (u : User) (m : Z) (s : St) :
  - 2 ^ 63 < m < 2 ^ 63 ->
  let w := st_world s in
  (token_usable (w_now w) m u ->
   refreshB2Token env u m s = (Val (None, u), s))
  /\
  (~ token_usable (w_now w) m u ->
   exists err u' w',
     refreshB2Token env u m s = (Val (err, u'), mkSt w' (st_resp s))
     /\ match backend_answer env (uID u) with
        | inl e =>
            err = Some e /\ u' = u /\ w' = w_log (EvCreateB2Token (uID u)) w
        | inr (token, expire) =>
            let w1 := w_log (EvSetB2Token (uID u) token expire)
                            (w_log (EvCreateB2Token (uID u)) w) in
            match env_fault env (EvSetB2Token (uID u) token expire) with
            | Some e => err = Some e /\ u' = u /\ w' = w1
            | None =>
                err = None
                /\ uB2Token u' = token /\ uB2Expire u' = expire
                /\ u' = withToken token expire u
                /\ w_users w' = alter (withToken token expire) (uID u) (w_users w)
                /\ w_trace w' = w_trace w ++ [EvCreateB2Token (uID u);
                                             EvSetB2Token (uID u) token expire]
                /\ w_files w' = w_files w
            end
        end).
Proof.
  intros Hm w. split.
  - intros Hok. apply (token_usable_test _ _ _ Hm) in Hok.
    unfold refreshB2Token. mrun. fold w. rewrite Hok. reflexivity.
  - intros Hno.
    assert (Htest : negb (String.eqb (uB2Token u) "")
                    && (w_now w + neg64 m <? uB2Expire u) = false).
    { apply not_true_is_false. intros H. apply Hno, (token_usable_test _ _ _ Hm), H. }
    unfold refreshB2Token, backend_answer. mrun. fold w. rewrite Htest.
    destruct (env_fault env (EvCreateB2Token (uID u))) as [e |].
    + eexists _, _, _. split; [reflexivity |]. repeat split.
    + destruct (env_create_token env (uID u)) as [e | [token expire]].
      * eexists _, _, _. split; [reflexivity |]. repeat split.
      * cbv zeta.
        destruct (env_fault env (EvSetB2Token (uID u) token expire)) as [e |].
        -- eexists _, _, _. split; [reflexivity |]. repeat split.
        -- eexists _, _, _. split; [reflexivity |]. cbn.
           rewrite <- app_assoc. repeat split.
Qed.

Lemma refreshB2Token_spec_witness :
  (* a token that expires at 5000, read at 1000 with margin 60: kept *)
  (- 2 ^ 63 < 60 < 2 ^ 63 /\ - 2 ^ 63 < -4000 < 2 ^ 63) /\
  (token_usable 1000 60 Demo.alice /\
   refreshB2Token Demo.env Demo.alice 60 (mkSt Demo.world0 freshResponse)
     = (Val (None, Demo.alice), mkSt Demo.world0 freshResponse))
  /\
  (* read with margin -4000, the token is refreshed *)
  (~ token_usable 1000 (-4000) Demo.alice /\
   exists err u' w',
     refreshB2Token Demo.env Demo.alice (-4000) (mkSt Demo.world0 freshResponse)
       = (Val (err, u'), mkSt w' freshResponse)
     /\ err = None /\ uB2Token u' = "tok2" /\ uB2Expire u' = 9000).
Proof.
  assert (B1 : - 2 ^ 63 < 60 < 2 ^ 63) by lia.
  assert (B2 : - 2 ^ 63 < -4000 < 2 ^ 63) by lia.
  split; [exact (conj B1 B2) |].
  split.
  - assert (H : token_usable 1000 60 Demo.alice)
      by (split; [discriminate | vm_compute; reflexivity]).
    split; [exact H |].
    exact (proj1 (refreshB2Token_spec Demo.env Demo.alice 60
                    (mkSt Demo.world0 freshResponse) B1) H).
  - assert (H : ~ token_usable 1000 (-4000) Demo.alice)
      by (intros [_ H]; vm_compute in H; discriminate H).
    split; [exact H |].
    destruct (proj2 (refreshB2Token_spec Demo.env Demo.alice (-4000)
                       (mkSt Demo.world0 freshResponse) B2) H)
      as (err & u' & w' & Hrun & Hrest).
    exists err, u', w'. split; [exact Hrun |].
    cbn in Hrest. destruct Hrest as (He & Ht & Hx & _). auto.
Defined.

(** The least margin: its negation is itself, so the call compares
    [now - 2^63] with the expiry, and a token that has not expired is kept. *)
Lemma refreshB2Token_least_margin (env : Env) (u : User) (s : St) :
  uB2Token u <> "" ->
  w_now (st_world s) - 2 ^ 63 < uB2Expire u ->
  refreshB2Token env u (- 2 ^ 63) s = (Val (None, u), s).
Proof.
  intros Htok Hexp. unfold refreshB2Token. mrun.
  change (neg64 (- 2 ^ 63)) with (- 2 ^ 63).
  assert (Hok : negb (String.eqb (uB2Token u) "")
                && (w_now (st_world s) + - 2 ^ 63 <? uB2Expire u) = true).
  { apply andb_true_iff. split; [apply negb_true_iff, String.eqb_neq, Htok | lia]. }
  rewrite Hok. reflexivity.
Qed.

(** ** Upload finish *)

(** What a finish call that returned without the 403 refusal has done. *)
Lemma uploadFinish_returned (env : Env) (r : Request) (w w' : World) (resp : Response) :
  serve (uploadFinish env r) w = (Returned, w', resp) ->
  status resp <> Some 403 ->
  exists u f o stored,
    r_user r = Some u
    /\ w_files w !! Param r "id" = Some f
    /\ w_uploads w !! Path env f = Some o
    /\ w_users w !! uID u = Some stored
    /\ w_files w' !! fID f = Some (finished f (oType o) (oSize o))
    /\ w_users w' !! uID u = Some (touch (w_now w) (addUsage (oSize o) stored))
    /\ w_uploads w' = w_uploads w.
Proof.
  intros H H403. unfold serve, uploadFinish, userFrom in H.
  destruct (r_user r) as [u |] eqn:Hu; [| discriminate H].
  cbn [negb] in H. cbv iota in H.
  destruct (String.eqb (QueryGet r "bid") "") eqn:Hb; [discriminate H |].
  mrun_in H.
  destruct (env_fault env (EvGetFile (Param r "id"))) eqn:Hf1; [discriminate H |].
  destruct (w_files w !! Param r "id") as [f |] eqn:Hfile; [| discriminate H].
  mrun_in H.
  destruct (fDeleted f || negb (fUserID f =? uID u)) eqn:Hguard.
  { mrun_in H. injection H as <- <-. exfalso. apply H403. reflexivity. }
  mrun_in H.
  destruct (env_fault env (EvHead (Path env f))) eqn:Hf2; [discriminate H |].
  destruct (w_uploads w !! Path env f) as [o |] eqn:Hobj; [| discriminate H].
  mrun_in H.
  destruct (env_fault env (EvFinish (fID f) (oType o) (oSize o))) eqn:Hf3;
    [discriminate H |].
  mrun_in H.
  exists u, f, o.
  destruct (oSize o >? maxFileSize) eqn:Hbig; mrun_in H.
  - destruct (env_fault env (EvDelete FilesBucket (Path env f))) eqn:Hf4; mrun_in H;
      (destruct (env_fault env (EvHandleUpload (Path env f) (uID u) (QueryGet r "bid")))
         eqn:Hf5; [discriminate H |]);
      rewrite Hobj in H;
      (destruct (w_users w !! uID u) as [stored |] eqn:Hus; [| discriminate H]);
      mrun_in H;
      (destruct (env_fault env (EvUpdateLastMod (uID u))) eqn:Hf6; [discriminate H |]);
      mrun_in H;
      (destruct (env_encode env _) eqn:Hf7; mrun_in H; [discriminate H |]);
      injection H as <- <-; exists stored; cbn;
      rewrite lookup_insert_eq, lookup_alter_eq, lookup_insert_eq; auto 10.
  - destruct (env_fault env (EvHandleUpload (Path env f) (uID u) (QueryGet r "bid")))
      eqn:Hf5; [discriminate H |].
    rewrite Hobj in H.
    destruct (w_users w !! uID u) as [stored |] eqn:Hus; [| discriminate H].
    mrun_in H.
    destruct (env_fault env (EvUpdateLastMod (uID u))) eqn:Hf6; [discriminate H |].
    mrun_in H.
    destruct (env_encode env _) eqn:Hf7; mrun_in H; [discriminate H |].
    injection H as <- <-. exists stored. cbn.
    rewrite lookup_insert_eq, lookup_alter_eq, lookup_insert_eq. auto 10.
Qed.

(** C4.  After an upload-finish that returned with status 200, the record
    finished is stored with the size and the type [Head] reported for the
    object at its upload path, whatever the client had declared, and the
    stored usage of the caller has grown by exactly that size; an object of
    size 0 leaves the usage as it was. *)
Theorem uploadFinish_observed (env : Env) (r : Request) (w w' : World) (resp : Response) :
  serve (uploadFinish env r) w = (Returned, w', resp) ->
  status resp = Some 200 ->
  exists u f o stored,
    r_user r = Some u
    /\ w_files w !! Param r "id" = Some f
    /\ w_uploads w !! Path env f = Some o
    /\ w_users w !! uID u = Some stored
    /\ (exists f', w_files w' !! fID f = Some f'
                   /\ fSize f' = oSize o /\ fType f' = oType o /\ fFinished f' = true)
    /\ (exists stored', w_users w' !! uID u = Some stored'
                        /\ uUsage stored' = uUsage stored + oSize o)
    /\ (oSize o = 0 -> uUsage <$> w_users w' !! uID u = uUsage <$> w_users w !! uID u).
Proof.
  intros Hrun H200.
  destruct (uploadFinish_returned env r w w' resp Hrun) as
    (u & f & o & stored & Hu & Hf & Ho & Hs & Hf' & Hs' & _).
  { rewrite H200. discriminate. }
  exists u, f, o, stored. repeat (split; [assumption |]).
  split; [| split].
  - eexists. split; [exact Hf' |]. repeat split.
  - eexists. split; [exact Hs' |]. reflexivity.
  - intros Hz. rewrite Hs', Hs. cbn. rewrite Hz, Z.add_0_r. reflexivity.
Qed.

Lemma uploadFinish_observed_witness :
  let env := Demo.env in
  let r := Demo.finishReq "f0" "b1" in
  let w := Demo.uploaded "audio/flac" 4242 in
  let w' := snd (fst (serve (uploadFinish env r) w)) in
  let resp := snd (serve (uploadFinish env r) w) in
  serve (uploadFinish env r) w = (Returned, w', resp)
  /\ status resp = Some 200
  /\ exists u f o stored,
       r_user r = Some u
       /\ w_files w !! Param r "id" = Some f
       /\ w_uploads w !! Path env f = Some o
       /\ w_users w !! uID u = Some stored
       /\ (exists f', w_files w' !! fID f = Some f'
                      /\ fSize f' = oSize o /\ fType f' = oType o /\ fFinished f' = true)
       /\ (exists stored', w_users w' !! uID u = Some stored'
                           /\ uUsage stored' = uUsage stored + oSize o)
       /\ (oSize o = 0 -> uUsage <$> w_users w' !! uID u = uUsage <$> w_users w !! uID u).
Proof.
  intros env r w w' resp.
  assert (Hrun : serve (uploadFinish env r) w = (Returned, w', resp))
    by (vm_compute; reflexivity).
  assert (H200 : status resp = Some 200) by (vm_compute; reflexivity).
  split; [exact Hrun |]. split; [exact H200 |].
  exact (uploadFinish_observed env r w w' resp Hrun H200).
Defined.

Example uploadFinish_observed_values :
  let run := serve (uploadFinish Demo.env (Demo.finishReq "f0" "b1"))
                   (Demo.uploaded "audio/flac" 4242) in
  fSize <$> w_files (snd (fst run)) !! "f0" = Some 4242
  /\ fType <$> w_files (snd (fst run)) !! "f0" = Some "audio/flac"
  /\ uUsage <$> w_users (snd (fst run)) !! 7 = Some (900000 + 4242).
Proof. vm_compute. repeat split. Qed.

(** ** Presigned PUTs are issued for free paths only *)

Lemma presign_guarded_app (a b : list Event) :
  (forall prev, presign_guarded prev b) ->
  forall prev, presign_guarded prev a -> presign_guarded prev (a ++ b).
Proof.
  intros Hb. induction a as [| e a IH]; intros prev Ha.
  - apply Hb.
  - destruct Ha as [He Ha]. split; [exact He | apply IH, Ha].
Qed.

Lemma exists_check_free (m : gmap string Object) (p : string) :
  bool_decide (is_Some (m !! p)) = false -> m !! p = None.
Proof.
  intros H. apply bool_decide_eq_false in H.
  apply eq_None_not_Some. exact H.
Qed.

Lemma free_check_false (m : gmap string Object) (p : string) :
  m !! p = None -> bool_decide (is_Some (m !! p)) = false.
Proof.
  intros H. apply bool_decide_eq_false. rewrite H. intros [o Ho]. discriminate Ho.
Qed.

(** A run that made no call. *)
Lemma guarded_run_nil (w w' : World) (out : Outcome) :
  w_trace w' = w_trace w -> w_uploads w' = w_uploads w -> guarded_run w w' out [].
Proof.
  intros Ht Hu. unfold guarded_run. rewrite app_nil_r.
  repeat split; try assumption; intros; contradiction.
Qed.

(** The calls made for one accepted item, followed by the calls [evs] of a
    run that started after them. *)
Lemma guarded_run_item (w w1 w' : World) (out : Outcome) (f : File)
      (p : string) (sz : Z) (d : string) (evs : list Event) :
  w_uploads w !! p = None ->
  w_trace w1 = w_trace w ++ [EvCreate f; EvExists p false; EvPresignPut p sz d] ->
  w_uploads w1 = w_uploads w ->
  guarded_run w1 w' out evs ->
  guarded_run w w' out ([EvCreate f; EvExists p false; EvPresignPut p sz d] ++ evs).
Proof.
  intros Hfree Ht Hu (Ht' & Hu' & Hg & Hp & Hc & Hx).
  unfold guarded_run. split; [| split; [| split; [| split; [| split]]]].
  - rewrite Ht', Ht, <- app_assoc. reflexivity.
  - rewrite Hu', Hu. reflexivity.
  - intros prev. apply presign_guarded_app; [exact Hg |]. cbn. auto.
  - intros q sz' d' Hin. cbn in Hin.
    destruct Hin as [Hin | [Hin | [Hin | Hin]]]; try discriminate Hin.
    + injection Hin as <- _ _. exact Hfree.
    + rewrite <- Hu. eapply Hp, Hin.
  - intros q found Hin. cbn in Hin.
    destruct Hin as [Hin | [Hin | [Hin | Hin]]]; try discriminate Hin.
    + injection Hin as <- <-. symmetry. apply free_check_false, Hfree.
    + rewrite <- Hu. apply Hc, Hin.
  - intros q Hin. cbn in Hin.
    destruct Hin as [Hin | [Hin | [Hin | Hin]]]; try discriminate Hin.
    eapply Hx, Hin.
Qed.

(** The loop of [uploadStart2], from any state. *)
Lemma start2_loop_guarded (env : Env) (u : User) (input : list Item) :
  forall (tot : Z) (out : list Meta) (s s' : St) (r : res (Z * list Meta)),
    start2_loop env u input tot out s = (r, s') ->
    exists evs, guarded_run (st_world s) (st_world s') (outcome_of r) evs.
Proof.
  induction input as [| f rest IH]; intros tot out s s' r H; cbn [start2_loop] in H.
  - mrun_in H. injection H as <- <-. exists []. apply guarded_run_nil; reflexivity.
  - destruct (iSize f =? 0).
    { mrun_in H. injection H as <- <-. exists []. apply guarded_run_nil; reflexivity. }
    destruct (iSize f >? maxFileSize).
    { mrun_in H. injection H as <- <-. exists []. apply guarded_run_nil; reflexivity. }
    mrun_in H.
    match type of H with
    | context [env_fault env (EvCreate ?x)] => set (zf := x) in *
    end.
    destruct (env_fault env (EvCreate zf)) as [e |].
    { injection H as <- <-. exists [EvCreate zf]. unfold guarded_run. cbn.
      repeat split; auto; intros; intuition discriminate. }
    mrun_in H.
    destruct (bool_decide (is_Some (w_uploads (st_world s) !! Path env zf))) eqn:Hfound.
    { injection H as <- <-.
      exists [EvCreate zf; EvExists (Path env zf) true]. unfold guarded_run. cbn.
      rewrite <- app_assoc.
      repeat split; auto; try (intros; intuition discriminate).
      - intros q found [Hin | [Hin | []]]; [discriminate Hin |].
        injection Hin as <- <-. symmetry. exact Hfound.
      - intros _ _. exists (" " +:+ fID zf). reflexivity. }
    apply exists_check_free in Hfound.
    mrun_in H.
    destruct (env_presign_put env (Path env zf) (iSize f) (encodeContentDisp (iName f)))
      as [e | url].
    { injection H as <- <-.
      exists ([EvCreate zf; EvExists (Path env zf) false;
               EvPresignPut (Path env zf) (iSize f) (encodeContentDisp (iName f))] ++ []).
      eapply guarded_run_item; [exact Hfound | | | apply guarded_run_nil; reflexivity].
      - cbn. rewrite <- !app_assoc. reflexivity.
      - reflexivity. }
    apply IH in H. destruct H as [evs Hevs].
    exists ([EvCreate zf; EvExists (Path env zf) false;
             EvPresignPut (Path env zf) (iSize f) (encodeContentDisp (iName f))] ++ evs).
    eapply guarded_run_item; [exact Hfound | | | exact Hevs].
    + cbn. rewrite <- !app_assoc. reflexivity.
    + reflexivity.
Qed.

(** A run without a positive check is guarded whatever its outcome. *)
Lemma guarded_run_returned (w w' : World) (evs : list Event) :
  guarded_run w w' Returned evs -> forall out, guarded_run w w' out evs.
Proof.
  intros (H1 & H2 & H3 & H4 & H5 & H6) out.
  repeat (split; [assumption |]).
  intros p Hin. destruct (H6 p Hin) as [rest Hrest]. discriminate Hrest.
Qed.

Lemma uploadStart2_guarded (env : Env) (r : Request) (w w' : World)
      (out : Outcome) (resp : Response) :
  serve (uploadStart2 env r) w = (out, w', resp) ->
  exists evs, guarded_run w w' out evs.
Proof.
  unfold serve, uploadStart2. intros H.
  destruct (r_body r) as [e | input].
  { mrun_in H. injection H as <- <- _. exists []. apply guarded_run_nil; reflexivity. }
  mrun_in H.
  destruct (start2_loop env (fst (userFrom r)) input 0 [] (mkSt w freshResponse))
    as [res s1] eqn:Hloop.
  apply start2_loop_guarded in Hloop. destruct Hloop as [evs Hevs].
  cbn [st_world] in Hevs. exists evs.
  destruct res as [[tot outp] | |]; mrun_in H.
  - destruct (negb (CalcQuota (fst (userFrom r)) =? 0)
              && (add64 (uUsage (fst (userFrom r))) tot >? CalcQuota (fst (userFrom r))));
      mrun_in H; try (destruct (env_encode env _); mrun_in H);
      injection H as <- <- _; apply (guarded_run_returned _ _ _ Hevs).
  - injection H as <- <- _. exact Hevs.
  - injection H as <- <- _. exact Hevs.
Qed.

Lemma uploadStart_guarded (env : Env) (r : Request) (w w' : World)
      (out : Outcome) (resp : Response) :
  serve (uploadStart env r) w = (out, w', resp) ->
  exists evs, guarded_run w w' out evs.
Proof.
  unfold serve, uploadStart. intros H.
  destruct (GoLib.ParseInt (FormValue r "size")) as [size |].
  2: { mrun_in H. injection H as <- <- _. exists []. apply guarded_run_nil; reflexivity. }
  destruct (size =? 0).
  { mrun_in H. injection H as <- <- _. exists []. apply guarded_run_nil; reflexivity. }
  mrun_in H.
  destruct (size >? maxFileSize).
  { mrun_in H. injection H as <- <- _. exists []. apply guarded_run_nil; reflexivity. }
  destruct (negb (CalcQuota (fst (userFrom r)) =? 0)
            && (add64 (uUsage (fst (userFrom r))) size >? CalcQuota (fst (userFrom r)))).
  { mrun_in H. injection H as <- <- _. exists []. apply guarded_run_nil; reflexivity. }
  mrun_in H.
  match type of H with
  | context [env_fault env (EvCreate ?x)] => set (zf := x) in *
  end.
  destruct (env_fault env (EvCreate zf)) as [e |].
  { injection H as <- <- _. exists [EvCreate zf]. unfold guarded_run. cbn.
    repeat split; auto; intros; intuition discriminate. }
  mrun_in H.
  destruct (bool_decide (is_Some (w_uploads w !! Path env zf))) eqn:Hfound.
  { injection H as <- <- _.
    exists [EvCreate zf; EvExists (Path env zf) true]. unfold guarded_run. cbn.
    rewrite <- app_assoc.
    repeat split; auto; try (intros; intuition discriminate).
    - intros q found [Hin | [Hin | []]]; [discriminate Hin |].
      injection Hin as <- <-. symmetry. exact Hfound.
    - intros _ _. exists "". reflexivity. }
  apply exists_check_free in Hfound.
  mrun_in H.
  exists ([EvCreate zf; EvExists (Path env zf) false;
           EvPresignPut (Path env zf) size (encodeContentDisp (FormValue r "name"))] ++ []).
  destruct (env_presign_put env (Path env zf) size (encodeContentDisp (FormValue r "name")))
    as [e | url]; mrun_in H; try (destruct (env_encode env _); mrun_in H);
    injection H as <- <- _;
    (eapply guarded_run_item; [exact Hfound | | | apply guarded_run_nil; reflexivity]);
    first [ reflexivity | cbn; rewrite <- !app_assoc; reflexivity ].
Qed.

(** C7.  In every run of the single or of the batch upload-start handler,
    each presigned PUT is issued directly after the check of the same path
    that found no object there, and the path indeed holds no object in the
    uploads bucket (which the handler does not change); every check reports
    whether the bucket holds an object at the path; and whenever the check
    finds an object, the run ends in the "already exists?!" panic, having
    issued no presigned PUT for a path that holds an object. *)
Theorem presign_only_after_exists_check (env : Env) (r : Request) (h : M unit)
        (w w' : World) (out : Outcome) (resp : Response) :
  h = uploadStart env r \/ h = uploadStart2 env r ->
  serve h w = (out, w', resp) ->
  exists evs,
    w_trace w' = w_trace w ++ evs
    /\ w_uploads w' = w_uploads w
    /\ presign_guarded None evs
    /\ (forall p sz d, In (EvPresignPut p sz d) evs -> w_uploads w !! p = None)
    /\ (forall p found, In (EvExists p found) evs ->
          found = bool_decide (is_Some (w_uploads w !! p)))
    /\ (forall p, In (EvExists p true) evs ->
          exists rest, out = Panicked (PStr ("already exists?!" +:+ rest))).
Proof.
  intros [-> | ->] Hrun.
  - destruct (uploadStart_guarded env r w w' out resp Hrun)
      as (evs & H1 & H2 & H3 & H4 & H5 & H6).
    exists evs. auto 7.
  - destruct (uploadStart2_guarded env r w w' out resp Hrun)
      as (evs & H1 & H2 & H3 & H4 & H5 & H6).
    exists evs. auto 7.
Qed.

Lemma presign_only_after_exists_check_witness :
  let env := Demo.env in
  let r := Demo.batchReq [Demo.song 100; Demo.song 200] in
  let w := Demo.world0 in
  let run := serve (uploadStart2 env r) w in
  (uploadStart2 env r = uploadStart env r \/ uploadStart2 env r = uploadStart2 env r)
  /\ serve (uploadStart2 env r) w = (fst (fst run), snd (fst run), snd run)
  /\ exists evs,
       w_trace (snd (fst run)) = w_trace w ++ evs
       /\ w_uploads (snd (fst run)) = w_uploads w
       /\ presign_guarded None evs
       /\ (forall p sz d, In (EvPresignPut p sz d) evs -> w_uploads w !! p = None)
       /\ (forall p found, In (EvExists p found) evs ->
             found = bool_decide (is_Some (w_uploads w !! p)))
       /\ (forall p, In (EvExists p true) evs ->
             exists rest, fst (fst run) = Panicked (PStr ("already exists?!" +:+ rest))).
Proof.
  intros env r w run.
  assert (Hh : uploadStart2 env r = uploadStart env r \/ uploadStart2 env r = uploadStart2 env r)
    by (right; reflexivity).
  assert (Hrun : serve (uploadStart2 env r) w = (fst (fst run), snd (fst run), snd run))
    by (vm_compute; reflexivity).
  split; [exact Hh |]. split; [exact Hrun |].
  exact (presign_only_after_exists_check env r (uploadStart2 env r) w
           (snd (fst run)) (fst (fst run)) (snd run) Hh Hrun).
Defined.

(** A path that already holds an object: both handlers panic after the check
    and the trace ends there, without a presigned PUT. *)
Example upload_start_collision :
  let w := w_set_uploads {[ "up/f0" := mkObject "audio/mpeg" 5 ]} Demo.world0 in
  let run1 := serve (uploadStart Demo.env (Demo.startReq "100")) w in
  let run2 := serve (uploadStart2 Demo.env (Demo.batchReq [Demo.song 100])) w in
  fst (fst run1) = Panicked (PStr "already exists?!")
  /\ w_trace (snd (fst run1)) =
       [EvCreate (mkFile "f0" 7 "a b.mp3" 100 "audio/mpeg" 0 false false);
        EvExists "up/f0" true]
  /\ fst (fst run2) = Panicked (PStr "already exists?! f0")
  /\ w_trace (snd (fst run2)) = w_trace (snd (fst run1)).
Proof. vm_compute. repeat split. Qed.

(** ** Where the batch start and the finish leave the specification *)

(** X6.  The single-file handler tests the quota before it creates anything:
    a request over the quota is answered 400 in the world it started from. *)
Lemma uploadStart_quota_first (env : Env) (r : Request) (w : World) (size : Z) :
  GoLib.ParseInt (FormValue r "size") = Some size ->
  size <> 0 ->
  size <= maxFileSize ->
  let u := fst (userFrom r) in
  CalcQuota u <> 0 ->
  add64 (uUsage u) size > CalcQuota u ->
  exists resp,
    serve (uploadStart env r) w = (Returned, w, resp)
    /\ status resp = Some 400
    /\ body resp = [Line "upload quota exceeded"].
Proof.
  intros Hsize Hnz Hmax u Hq Hover.
  unfold serve, uploadStart. rewrite Hsize.
  apply Z.eqb_neq in Hnz. rewrite Hnz.
  assert (Hle : (size >? maxFileSize) = false) by lia.
  assert (Hquota : negb (CalcQuota u =? 0) && (add64 (uUsage u) size >? CalcQuota u) = true).
  { apply andb_true_iff. split; [apply negb_true_iff, Z.eqb_neq, Hq | lia]. }
  mrun. rewrite Hle. fold u. rewrite Hquota. mrun.
  eexists. repeat split.
Qed.

(** C1, on the code.  Quota 1,000,000, usage 900,000, a batch of one file of
    200,000 bytes: the batch is answered 400 "would exceed upload quota", but
    only after the loop has run; the record [f0] is stored and a presigned PUT
    was issued for its path. *)
Theorem uploadStart2_quota_checked_late :
  let u := Demo.alice in
  let run := serve (uploadStart2 Demo.env (Demo.batchReq [Demo.song 200000])) Demo.world0 in
  let disp := encodeContentDisp "a b.mp3" in
  CalcQuota u <> 0 /\ uUsage u + 200000 > CalcQuota u
  /\ w_files Demo.world0 = ∅
  /\ fst (fst run) = Returned
  /\ status (snd run) = Some 400
  /\ body (snd run) = [Line "would exceed upload quota"]
  /\ w_files (snd (fst run)) !! "f0" =
       Some (mkFile "f0" 7 "a b.mp3" 200000 "audio/mpeg" 0 false false)
  /\ w_trace (snd (fst run)) =
       [EvCreate (mkFile "f0" 7 "a b.mp3" 200000 "audio/mpeg" 0 false false);
        EvExists "up/f0" false;
        EvPresignPut "up/f0" 200000 disp].
Proof.
  cbv zeta. split; [discriminate |]. split; [reflexivity |].
  vm_compute. repeat split.
Qed.

(** C3, on the code.  A batch whose second item declares size 0, or a size
    above the maximum, is refused (by the "missing file size" panic, or with
    400 "file too big"), but the record of the first item is stored by then
    and a presigned PUT was issued for it. *)
Theorem uploadStart2_rejects_after_creating :
  let first := mkFile "f0" 7 "a b.mp3" 100 "audio/mpeg" 0 false false in
  let disp := encodeContentDisp "a b.mp3" in
  let calls := [EvCreate first; EvExists "up/f0" false; EvPresignPut "up/f0" 100 disp] in
  let zero := serve (uploadStart2 Demo.env (Demo.batchReq [Demo.song 100; Demo.song 0]))
                    Demo.world0 in
  let big := serve (uploadStart2 Demo.env
                      (Demo.batchReq [Demo.song 100; Demo.song 500000001]))
                   Demo.world0 in
  w_files Demo.world0 = ∅
  /\ (fst (fst zero) = Panicked (PStr "missing file size")
      /\ w_files (snd (fst zero)) !! "f0" = Some first
      /\ w_trace (snd (fst zero)) = calls)
  /\ (fst (fst big) = Returned
      /\ status (snd big) = Some 400
      /\ body (snd big) = [Line "file too big. max size is 500MB"]
      /\ w_files (snd (fst big)) !! "f0" = Some first
      /\ w_trace (snd (fst big)) = calls).
Proof.
  cbv zeta. split; [reflexivity |].
  vm_compute. repeat split.
Qed.

(** C2, on the code.  A finish call for a record whose stored object has
    500,000,001 bytes: status 400 is written, but the delete goes to the
    files bucket, so the object stays in the uploads bucket, and the handler
    does not return there: the record is finished with the oversized size,
    the downstream processing and the last-modified update run, the usage
    grows by the oversized size and the track is written to the response. *)
Theorem uploadFinish_oversize_goes_on :
  let w := Demo.uploaded "audio/flac" 500000001 in
  let run := serve (uploadFinish Demo.env (Demo.finishReq "f0" "b1")) w in
  let w' := snd (fst run) in
  500000001 > maxFileSize
  /\ w_uploads w !! "up/f0" = Some (mkObject "audio/flac" 500000001)
  /\ fst (fst run) = Returned
  /\ status (snd run) = Some 400
  /\ body (snd run) = [JsonTrack (mkTrack "up/f0" 7 "b1")]
  /\ w_stdout w' = ["nice try. file too big."]
  /\ w_uploads w' !! "up/f0" = Some (mkObject "audio/flac" 500000001)
  /\ w_files w' !! "f0" = Some (mkFile "f0" 7 "a b.mp3" 500000001 "audio/flac" 0 false true)
  /\ w_users w' !! 7 = Some (mkUser 7 (900000 + 500000001) 1000000 "tok1" 5000 1000)
  /\ w_trace w' =
       [EvGetFile "f0"; EvHead "up/f0"; EvFinish "f0" "audio/flac" 500000001;
        EvDelete FilesBucket "up/f0"; EvHandleUpload "up/f0" 7 "b1"; EvUpdateLastMod 7].
Proof.
  cbv zeta. split; [reflexivity |].
  vm_compute. repeat split.
Qed.

(** * Further properties of the code *)

(** ** Extensions and download ids *)

Section Extensions.

Import GoLib.

Lemma string_app_assoc (a b c : string) : (a +:+ b) +:+ c = a +:+ (b +:+ c).
Proof.
  induction a as [| x a IH]; [reflexivity |].
  change (String x ((a +:+ b) +:+ c) = String x (a +:+ (b +:+ c))).
  f_equal. exact IH.
Qed.

Lemma string_length_app (a b : string) :
  String.length (a +:+ b) = (String.length a + String.length b)%nat.
Proof.
  induction a as [| x a IH]; [reflexivity |].
  change (S (String.length (a +:+ b)) = S (String.length a + String.length b)).
  f_equal. exact IH.
Qed.

Lemma get_app_r (a b : string) (k : nat) :
  String.get (String.length a + k) (a +:+ b) = String.get k b.
Proof. induction a as [| x a IH]; [reflexivity | exact IH]. Qed.

Lemma substring_app_r (a b : string) (n : nat) :
  String.substring (String.length a) n (a +:+ b) = String.substring 0 n b.
Proof. induction a as [| x a IH]; [reflexivity | exact IH]. Qed.

Lemma substring_app_l (a b : string) :
  String.substring 0 (String.length a) (a +:+ b) = a.
Proof.
  induction a as [| x a IH].
  - destruct b; reflexivity.
  - change (String x (String.substring 0 (String.length a) (a +:+ b)) = String x a).
    f_equal. exact IH.
Qed.

Lemma get_all_bytes (p : ascii -> bool) (s : string) :
  all_bytes p s = true ->
  forall (k : nat) (c : ascii), String.get k s = Some c -> p c = true.
Proof.
  induction s as [| x s IH]; intros Hall k c Hget.
  - destruct k; discriminate Hget.
  - cbn [all_bytes] in Hall. apply andb_true_iff in Hall as [Hx Hs].
    destruct k as [| k].
    + injection Hget as <-. exact Hx.
    + exact (IH Hs k c Hget).
Qed.

Lemma get_some (s : string) :
  forall k : nat, (k < String.length s)%nat -> exists c, String.get k s = Some c.
Proof.
  induction s as [| x s IH]; intros k Hk; cbn [String.length] in Hk; [lia |].
  destruct k as [| k]; [exists x; reflexivity |].
  apply IH. lia.
Qed.

Lemma plain_byte_tests (c : ascii) :
  plain_byte c = true -> byte_eqb c "/" = false /\ byte_eqb c "." = false.
Proof.
  unfold plain_byte. intros H. apply negb_true_iff, orb_false_iff in H. tauto.
Qed.

(** The loop of [path.Ext] runs over plain bytes without stopping. *)
Lemma ext_loop_skip (a b : string) :
  all_bytes plain_byte b = true ->
  forall k : nat, (k <= String.length b)%nat ->
    ext_loop (a +:+ b) (String.length a + k) = ext_loop (a +:+ b) (String.length a).
Proof.
  intros Hb. induction k as [| k IH]; intros Hk.
  - rewrite Nat.add_0_r. reflexivity.
  - rewrite Nat.add_succ_r. cbn [ext_loop]. rewrite get_app_r.
    destruct (get_some b k) as [c Hc]; [lia |]. rewrite Hc.
    destruct (plain_byte_tests c (get_all_bytes _ _ Hb k c Hc)) as [-> ->].
    apply IH. lia.
Qed.

Lemma ext_loop_at (a b : string) (c : ascii) :
  ext_loop (a +:+ String c b) (S (String.length a)) =
    if byte_eqb c "/" then ""
    else if byte_eqb c "." then String c b
    else ext_loop (a +:+ String c b) (String.length a).
Proof.
  cbn [ext_loop].
  rewrite <- (Nat.add_0_r (String.length a)) at 1. rewrite get_app_r.
  cbn [String.get].
  destruct (byte_eqb c "/"); [reflexivity |].
  destruct (byte_eqb c "."); [| reflexivity].
  unfold slice_from. rewrite substring_app_r, string_length_app.
  replace (String.length a + String.length (String c b) - String.length a)%nat
    with (String.length (String c b)) by lia.
  apply substring_whole.
Qed.

Lemma Ext_after_special (a b : string) (c : ascii) :
  all_bytes plain_byte b = true ->
  Ext (a +:+ String c b) =
    if byte_eqb c "/" then ""
    else if byte_eqb c "." then String c b
    else ext_loop (a +:+ String c b) (String.length a).
Proof.
  intros Hb. unfold Ext.
  assert (Hsplit : a +:+ String c b = (a +:+ String c "") +:+ b)
    by (rewrite string_app_assoc; reflexivity).
  assert (Hlen : String.length (a +:+ String c b)
                 = (String.length (a +:+ String c "") + String.length b)%nat).
  { rewrite !string_length_app. cbn [String.length]. lia. }
  rewrite Hlen. rewrite Hsplit at 1.
  rewrite (ext_loop_skip (a +:+ String c "") b Hb) by lia.
  rewrite <- Hsplit. rewrite string_length_app. cbn [String.length].
  rewrite Nat.add_1_r. apply ext_loop_at.
Qed.

Lemma Ext_plain (s : string) : all_bytes plain_byte s = true -> Ext s = "".
Proof.
  intros Hs. unfold Ext.
  exact (ext_loop_skip "" s Hs (String.length s) (Nat.le_refl _)).
Qed.

(** Cut a string at its last dot or slash. *)
Lemma last_special (p : string) :
  all_bytes plain_byte p = true
  \/ exists a c b, p = a +:+ String c b /\ plain_byte c = false
                   /\ all_bytes plain_byte b = true.
Proof.
  induction p as [| x p IH]; [left; reflexivity |].
  destruct IH as [Hp | (a & c & b & -> & Hc & Hb)].
  - destruct (plain_byte x) eqn:Hx.
    + left. cbn [all_bytes]. rewrite Hx, Hp. reflexivity.
    + right. exists "", x, p. auto.
  - right. exists (String x a), c, b. auto.
Qed.

Lemma special_byte (c : ascii) :
  plain_byte c = false -> c = "."%char \/ c = "/"%char.
Proof.
  unfold plain_byte, byte_eqb. intros H.
  apply negb_false_iff, orb_true_iff in H.
  destruct H as [H | H]; apply Ascii.eqb_eq in H; auto.
Qed.

(** X1.  What [path.Ext] returns, for every string: nothing when the string
    has neither dot nor slash; nothing when only plain bytes follow its last
    slash; and when only plain bytes follow its last dot, that dot and those
    bytes.  So an extension is empty or one dot followed by bytes that are
    neither dots nor slashes. *)
Theorem Ext_cases (p : string) :
  (all_bytes plain_byte p = true /\ Ext p = "")
  \/ (exists a b, p = a +:+ String "/" b /\ all_bytes plain_byte b = true
                  /\ Ext p = "")
  \/ (exists a b, p = a +:+ String "." b /\ all_bytes plain_byte b = true
                  /\ Ext p = String "." b).
Proof.
  destruct (last_special p) as [Hp | (a & c & b & -> & Hc & Hb)].
  - left. split; [exact Hp | apply Ext_plain, Hp].
  - right. rewrite (Ext_after_special a b c Hb).
    destruct (special_byte c Hc) as [-> | ->].
    + right. exists a, b. auto.
    + left. exists a, b. auto.
Qed.

(** X2.  The id [downloadTrack] looks up: a parameter [a.b] whose last part
    [b] has neither dot nor slash is looked up as [a] (so [.flac] alone is
    looked up as the empty id); a parameter without such an ending is looked
    up as it is. *)
Theorem trackID_strips (a b : string) :
  all_bytes plain_byte b = true ->
  trackID (a +:+ String "." b) = a
  /\ trackID (a +:+ String "/" b) = a +:+ String "/" b
  /\ trackID b = b.
Proof.
  intros Hb. unfold trackID. split; [| split].
  - rewrite (Ext_after_special a b "." Hb). cbn [byte_eqb Ascii.eqb Bool.eqb negb String.eqb].
    cbv iota. rewrite string_length_app.
    replace (String.length a + String.length (String "." b)
             - String.length (String "." b))%nat with (String.length a) by lia.
    apply substring_app_l.
  - rewrite (Ext_after_special a b "/" Hb). reflexivity.
  - rewrite (Ext_plain b Hb). reflexivity.
Qed.

Lemma trackID_strips_witness :
  all_bytes plain_byte "flac" = true
  /\ trackID ("0064.tar" +:+ String "." "flac") = "0064.tar"
  /\ trackID ("0064.tar" +:+ String "/" "flac") = "0064.tar" +:+ String "/" "flac"
  /\ trackID "flac" = "flac".
Proof.
  split; [reflexivity |].
  apply (trackID_strips "0064.tar" "flac"). reflexivity.
Defined.

End Extensions.

(** ** The header value as a whole *)

Section Fallback.

Import GoLib PercentDecode.








End Fallback.

(** ** Reading the header back *)

Section HeaderValue.

Import GoLib PercentDecode.

Lemma has_byte_app (c : ascii) (a b : string) :
  has_byte c (a +:+ b) = has_byte c a || has_byte c b.
Proof.
  induction a as [| x a IH]; [reflexivity |].
  change (byte_eqb x c || has_byte c (a +:+ b)
          = byte_eqb x c || has_byte c a || has_byte c b).
  rewrite IH. apply orb_assoc.
Qed.

Lemma after_last_app (c : ascii) (p e : string) :
  has_byte c e = false -> after_last c (p +:+ String c e) = e.
Proof.
  intros He. induction p as [| x p IH].
  - change ("" +:+ String c e) with (String c e).
    change (after_last c (String c e))
      with (if has_byte c e then after_last c e
            else if byte_eqb c c then e else String c e).
    rewrite He. unfold byte_eqb. rewrite Ascii.eqb_refl. reflexivity.
  - change (String x p +:+ String c e) with (String x (p +:+ String c e)).
    change (after_last c (String x (p +:+ String c e)))
      with (if has_byte c (p +:+ String c e) then after_last c (p +:+ String c e)
            else if byte_eqb x c then p +:+ String c e
                 else String x (p +:+ String c e)).
    rewrite has_byte_app.
    change (has_byte c (String c e)) with (byte_eqb c c || has_byte c e).
    unfold byte_eqb at 1. rewrite Ascii.eqb_refl, orb_true_r. exact IH.
Qed.

Lemma ext_value_no_apostrophe (s : string) :
  all_bytes ext_value_byte s = true -> has_byte "'" s = false.
Proof.
  induction s as [| x s IH]; [reflexivity |].
  cbn [all_bytes has_byte]. intros H. apply andb_true_iff in H as [Hx Hs].
  rewrite (IH Hs), orb_false_r.
  destruct (byte_eqb x "'") eqn:E; [| reflexivity].
  apply Ascii.eqb_eq in E. subst x. discriminate Hx.
Qed.

Lemma encodeContentDisp_ends (filename : string) :
  exists p, encodeContentDisp filename = p +:+ String "'" (escaped_name filename).
Proof.
  exists ("attachment; filename=" +:+ dquote +:+ "file" +:+ Ext filename
          +:+ dquote +:+ "; filename*=UTF-8'").
  unfold encodeContentDisp, escaped_name. cbv zeta.
  rewrite !string_app_assoc. reflexivity.
Qed.

(** X3.  From the whole header value [encodeContentDisp] produces, a client
    that takes what follows the last apostrophe and percent-decodes it gets
    the original filename, whatever bytes the filename and its extension
    hold. *)
Theorem header_filename_roundtrip (filename : string) :
  header_filename (encodeContentDisp filename) = Some filename.
Proof.
  unfold header_filename.
  destruct (encodeContentDisp_ends filename) as [p ->].
  rewrite after_last_app.
  - apply escaped_name_decodes.
  - apply ext_value_no_apostrophe, escaped_name_safe.
Qed.

Lemma escape_unreserved (c : ascii) :
  unreserved_byte c = true ->
  replace_from "+" "%20" (escape_byte c) 0 = String c "".
Proof.
  destruct c as [[] [] [] [] [] [] [] []]; intros H; try discriminate H; reflexivity.
Qed.

Lemma escape_reserved (c : ascii) :
  unreserved_byte c = false ->
  String.length (replace_from "+" "%20" (escape_byte c) 0) = 3%nat.
Proof.
  destruct c as [[] [] [] [] [] [] [] []]; intros H; try discriminate H; reflexivity.
Qed.

Lemma escaped_name_length (s : string) :
  (String.length s <= String.length (escaped_name s) <= 3 * String.length s)%nat.
Proof.
  induction s as [| c s IH]; [cbn; lia |].
  rewrite escaped_name_cons, string_length_app. cbn [String.length].
  destruct (unreserved_byte c) eqn:Hc.
  - rewrite (escape_unreserved c Hc). cbn [String.length]. lia.
  - rewrite (escape_reserved c Hc). lia.
Qed.

Lemma escaped_name_grows (s : string) :
  all_bytes unreserved_byte s = false ->
  (String.length s < String.length (escaped_name s))%nat.
Proof.
  induction s as [| c s IH]; [discriminate |].
  cbn [all_bytes]. intros H.
  rewrite escaped_name_cons, string_length_app. cbn [String.length].
  pose proof (escaped_name_length s) as Hlen.
  destruct (unreserved_byte c) eqn:Hc.
  - rewrite (escape_unreserved c Hc). cbn [String.length].
    cbn [andb] in H. specialize (IH H). lia.
  - rewrite (escape_reserved c Hc). lia.
Qed.

(** X4.  The extended value is the filename itself exactly when the filename
    is made of letters, digits and the marks [-_.~]; every other byte costs
    three bytes, so the value is never shorter than the filename and never
    longer than three times its length. *)
Theorem escaped_name_identity (s : string) :
  (escaped_name s = s <-> all_bytes unreserved_byte s = true)
  /\ (String.length s <= String.length (escaped_name s) <= 3 * String.length s)%nat.
Proof.
  split; [| apply escaped_name_length].
  split.
  - intros Heq. destruct (all_bytes unreserved_byte s) eqn:Hall; [reflexivity |].
    apply escaped_name_grows in Hall. rewrite Heq in Hall. lia.
  - induction s as [| c s IH]; [reflexivity |].
    cbn [all_bytes]. intros H. apply andb_true_iff in H as [Hc Hs].
    rewrite escaped_name_cons, (escape_unreserved c Hc), (IH Hs). reflexivity.
Qed.

End HeaderValue.

(** ** Upload start: refusals and acceptance *)

(** X5.  A single upload-start whose declared size is above the maximum is
    answered 400 with the "file too big" line, whatever the usage and the
    quota of the caller are; the world is left as it was. *)
Theorem uploadStart_too_big (env : Env) (r : Request) (w : World) (size : Z) :
  GoLib.ParseInt (FormValue r "size") = Some size ->
  size > maxFileSize ->
  exists resp,
    serve (uploadStart env r) w = (Returned, w, resp)
    /\ status resp = Some 400
    /\ body resp = [Line "file too big. max size is 500MB"].
Proof.
  intros Hsize Hbig. unfold serve, uploadStart. rewrite Hsize.
  assert (Hnz : (size =? 0) = false) by (unfold maxFileSize in Hbig; lia).
  assert (Hgt : (size >? maxFileSize) = true) by lia.
  rewrite Hnz. mrun. rewrite Hgt. mrun.
  eexists. repeat split.
Qed.

Lemma uploadStart_too_big_witness :
  GoLib.ParseInt (FormValue (Demo.startReq "600000000") "size") = Some 600000000
  /\ 600000000 > maxFileSize
  /\ exists resp,
       serve (uploadStart Demo.env (Demo.startReq "600000000")) Demo.world0
         = (Returned, Demo.world0, resp)
       /\ status resp = Some 400
       /\ body resp = [Line "file too big. max size is 500MB"].
Proof.
  assert (H1 : GoLib.ParseInt (FormValue (Demo.startReq "600000000") "size")
               = Some 600000000) by (vm_compute; reflexivity).
  assert (H2 : 600000000 > maxFileSize) by reflexivity.
  split; [exact H1 |]. split; [exact H2 |].
  exact (uploadStart_too_big Demo.env (Demo.startReq "600000000") Demo.world0
           600000000 H1 H2).
Defined.

Lemma uploadStart_quota_first_witness :
  let r := Demo.startReq "200000" in
  GoLib.ParseInt (FormValue r "size") = Some 200000
  /\ exists resp,
       serve (uploadStart Demo.env r) Demo.world0 = (Returned, Demo.world0, resp)
       /\ status resp = Some 400
       /\ body resp = [Line "upload quota exceeded"].
Proof.
  intros r.
  assert (H1 : GoLib.ParseInt (FormValue r "size") = Some 200000)
    by (vm_compute; reflexivity).
  split; [exact H1 |].
  apply (uploadStart_quota_first Demo.env r Demo.world0 200000 H1).
  - discriminate.
  - vm_compute. discriminate.
  - vm_compute. discriminate.
  - vm_compute. reflexivity.
Defined.

(** What an accepted single upload-start does, step by step. *)
Lemma uploadStart_run_ok (env : Env) (r : Request) (w : World) (size : Z) (url : string) :
  let u := fst (userFrom r) in
  let name := FormValue r "name" in
  let zf := newRecord env w u name size (FormValue r "type") (formLastMod r) in
  let disp := encodeContentDisp name in
  GoLib.ParseInt (FormValue r "size") = Some size ->
  size <> 0 ->
  size <= maxFileSize ->
  CalcQuota u = 0 \/ add64 (uUsage u) size <= CalcQuota u ->
  env_fault env (EvCreate zf) = None ->
  w_uploads w !! Path env zf = None ->
  env_presign_put env (Path env zf) size disp = inr url ->
  env_encode env (JsonStart (mkStartAnswer (fID zf) disp url "")) = None ->
  exists w' resp,
    serve (uploadStart env r) w = (Returned, w', resp)
    /\ status resp = Some 200
    /\ headers resp !! "Tube-Upload-ID" = Some (fID zf)
    /\ body resp = [JsonStart (mkStartAnswer (fID zf) disp url "")]
    /\ w_files w' = <[fID zf := zf]> (w_files w)
    /\ w_trace w' = w_trace w ++ [EvCreate zf; EvExists (Path env zf) false;
                                 EvPresignPut (Path env zf) size disp]
    /\ w_users w' = w_users w /\ w_uploads w' = w_uploads w
    /\ w_stored w' = w_stored w /\ w_now w' = w_now w.
Proof.
  intros u name zf disp Hsize Hnz Hmax Hquota Hfault Hfree Hurl Henc.
  assert (Hz : (size =? 0) = false) by lia.
  assert (Hle : (size >? maxFileSize) = false) by lia.
  assert (Hq : negb (CalcQuota u =? 0) && (add64 (uUsage u) size >? CalcQuota u) = false).
  { destruct Hquota as [-> | Hq]; [reflexivity |].
    apply andb_false_iff. right. lia. }
  unfold serve, uploadStart. rewrite Hsize, Hz. mrun. rewrite Hle.
  fold u. rewrite Hq. mrun.
  change (withTypeMod _ _ _) with zf. rewrite Hfault. mrun.
  cbn [w_uploads w_log w_bump w_set_files].
  rewrite (free_check_false _ _ Hfree).
  fold name. fold disp. rewrite Hurl. mrun. rewrite Henc. mrun.
  eexists _, _. split; [reflexivity |].
  cbn. rewrite <- !app_assoc. repeat split.
Qed.

(** X7.  A single upload-start is accepted for every declared size that is
    not zero, not above the maximum (a negative size passes both tests) and
    within the quota, when the record can be stored, its upload path is free,
    the presigning works and the JSON encoder does not fail: the handler
    returns with status 200 and the id in [Tube-Upload-ID]; exactly the
    pending record with the declared size, type and modification time is
    stored under a new id; the calls made are the storing, the check of the
    path and the presigned PUT for the declared size; the users (their
    usage) and the buckets are untouched. *)
Theorem uploadStart_accepts (env : Env) (r : Request) (w : World) (size : Z) (url : string) :
  let u := fst (userFrom r) in
  let name := FormValue r "name" in
  let zf := newRecord env w u name size (FormValue r "type") (formLastMod r) in
  let disp := encodeContentDisp name in
  GoLib.ParseInt (FormValue r "size") = Some size ->
  size <> 0 ->
  size <= maxFileSize ->
  CalcQuota u = 0 \/ add64 (uUsage u) size <= CalcQuota u ->
  env_fault env (EvCreate zf) = None ->
  w_uploads w !! Path env zf = None ->
  env_presign_put env (Path env zf) size disp = inr url ->
  env_encode env (JsonStart (mkStartAnswer (fID zf) disp url "")) = None ->
  exists w' resp,
    serve (uploadStart env r) w = (Returned, w', resp)
    /\ status resp = Some 200
    /\ headers resp !! "Tube-Upload-ID" = Some (fID zf)
    /\ w_files w' = <[fID zf := zf]> (w_files w)
    /\ w_trace w' = w_trace w ++ [EvCreate zf; EvExists (Path env zf) false;
                                 EvPresignPut (Path env zf) size disp]
    /\ w_users w' = w_users w /\ w_uploads w' = w_uploads w
    /\ w_stored w' = w_stored w /\ w_now w' = w_now w.
Proof.
  intros u name zf disp Hsize Hnz Hmax Hquota Hfault Hfree Hurl Henc.
  destruct (uploadStart_run_ok env r w size url Hsize Hnz Hmax Hquota Hfault Hfree
              Hurl Henc) as (w' & resp & Hrun & H200 & Hid & _ & Hrest).
  exists w', resp. auto.
Qed.

Lemma uploadStart_accepts_witness :
  let r := Demo.startReq "-5" in
  let zf := mkFile "f0" 7 "a b.mp3" (-5) "audio/mpeg" 0 false false in
  GoLib.ParseInt (FormValue r "size") = Some (-5)
  /\ exists w' resp,
       serve (uploadStart Demo.env r) Demo.world0 = (Returned, w', resp)
       /\ status resp = Some 200
       /\ headers resp !! "Tube-Upload-ID" = Some "f0"
       /\ w_files w' = <["f0" := zf]> (w_files Demo.world0)
       /\ w_trace w' = w_trace Demo.world0
                       ++ [EvCreate zf; EvExists "up/f0" false;
                           EvPresignPut "up/f0" (-5) (encodeContentDisp "a b.mp3")]
       /\ w_users w' = w_users Demo.world0 /\ w_uploads w' = w_uploads Demo.world0
       /\ w_stored w' = w_stored Demo.world0 /\ w_now w' = w_now Demo.world0.
Proof.
  intros r zf.
  assert (H1 : GoLib.ParseInt (FormValue r "size") = Some (-5))
    by (vm_compute; reflexivity).
  split; [exact H1 |].
  apply (uploadStart_accepts Demo.env r Demo.world0 (-5) "https://put/up/f0" H1).
  - discriminate.
  - vm_compute. discriminate.
  - right. vm_compute. discriminate.
  - reflexivity.
  - vm_compute. reflexivity.
  - vm_compute. reflexivity.
  - reflexivity.
Defined.

(** ** What upload-start leaves alone *)

Lemma footprint_same (u : User) (w w' : World) :
  w_users w' = w_users w -> w_stored w' = w_stored w -> w_now w' = w_now w ->
  w_stdout w' = w_stdout w -> (w_created w <= w_created w')%nat ->
  w_files w' = w_files w ->
  start_footprint u w w'.
Proof.
  intros H1 H2 H3 H4 H5 H6. unfold start_footprint.
  repeat (split; [assumption |]).
  intros id f Hf. left. rewrite <- H6. exact Hf.
Qed.

Lemma footprint_insert (u : User) (w w' : World) (zf : File) :
  w_users w' = w_users w -> w_stored w' = w_stored w -> w_now w' = w_now w ->
  w_stdout w' = w_stdout w -> (w_created w <= w_created w')%nat ->
  w_files w' = <[fID zf := zf]> (w_files w) ->
  fUserID zf = uID u -> fDeleted zf = false -> fFinished zf = false ->
  fSize zf <> 0 -> fSize zf <= maxFileSize ->
  start_footprint u w w'.
Proof.
  intros H1 H2 H3 H4 H5 H6 Hu Hd Hfin Hnz Hmax. unfold start_footprint.
  repeat (split; [assumption |]).
  intros id f Hf. rewrite H6 in Hf.
  apply lookup_insert_Some in Hf as [[_ <-] | [_ Hf]]; [right | left]; auto.
Qed.

Lemma footprint_trans (u : User) (w1 w2 w3 : World) :
  start_footprint u w1 w2 -> start_footprint u w2 w3 -> start_footprint u w1 w3.
Proof.
  intros (A1 & A2 & A3 & A4 & A5 & A6) (B1 & B2 & B3 & B4 & B5 & B6).
  unfold start_footprint.
  split; [congruence |]. split; [congruence |]. split; [congruence |].
  split; [congruence |]. split; [lia |].
  intros id f Hf. destruct (B6 id f Hf) as [Hold | Hnew]; [| right; exact Hnew].
  apply A6, Hold.
Qed.

Lemma start2_loop_footprint (env : Env) (u : User) (input : list Item) :
  forall (tot : Z) (out : list Meta) (s s' : St) (r : res (Z * list Meta)),
    start2_loop env u input tot out s = (r, s') ->
    start_footprint u (st_world s) (st_world s').
Proof.
  induction input as [| f rest IH]; intros tot out s s' r H; cbn [start2_loop] in H.
  - mrun_in H. injection H as <- <-. apply footprint_same; reflexivity.
  - destruct (iSize f =? 0) eqn:Hz.
    { mrun_in H. injection H as <- <-. apply footprint_same; reflexivity. }
    destruct (iSize f >? maxFileSize) eqn:Hbig.
    { mrun_in H. injection H as <- <-. apply footprint_same; reflexivity. }
    mrun_in H.
    match type of H with
    | context [env_fault env (EvCreate ?x)] => set (zf := x) in *
    end.
    assert (Hins : forall w1 : World,
               w_users w1 = w_users (st_world s) -> w_stored w1 = w_stored (st_world s) ->
               w_now w1 = w_now (st_world s) -> w_stdout w1 = w_stdout (st_world s) ->
               (w_created (st_world s) <= w_created w1)%nat ->
               w_files w1 = <[fID zf := zf]> (w_files (st_world s)) ->
               start_footprint u (st_world s) w1).
    { intros w1 H1 H2 H3 H4 H5 H6.
      apply (footprint_insert u _ w1 zf); try assumption; try reflexivity.
      - cbn. lia.
      - cbn. lia. }
    destruct (env_fault env (EvCreate zf)) as [e |].
    { injection H as <- <-. apply footprint_same; cbn; auto. }
    mrun_in H.
    destruct (bool_decide (is_Some (w_uploads (st_world s) !! Path env zf))).
    { injection H as <- <-. apply Hins; cbn; auto. }
    mrun_in H.
    destruct (env_presign_put env (Path env zf) (iSize f) (encodeContentDisp (iName f)))
      as [e | url].
    { injection H as <- <-. apply Hins; cbn; auto. }
    apply IH in H. cbn [st_world] in H.
    eapply footprint_trans; [| exact H].
    apply Hins; cbn; auto.
Qed.

(** X8.  In every run of the single or of the batch upload-start handler,
    whatever its outcome, the users (so their usage), the files bucket and
    the uploads bucket are left as they were, and every record the run adds
    or replaces is a pending, not deleted record of the caller whose declared
    size is not zero and not above the maximum. *)
Theorem upload_start_footprint (env : Env) (r : Request) (h : M unit)
        (w w' : World) (out : Outcome) (resp : Response) :
  h = uploadStart env r \/ h = uploadStart2 env r ->
  serve h w = (out, w', resp) ->
  start_footprint (fst (userFrom r)) w w' /\ w_uploads w' = w_uploads w.
Proof.
  intros Hh Hrun. split.
  2: { destruct Hh as [-> | ->].
       - destruct (uploadStart_guarded env r w w' out resp Hrun) as (evs & _ & H & _).
         exact H.
       - destruct (uploadStart2_guarded env r w w' out resp Hrun) as (evs & _ & H & _).
         exact H. }
  destruct Hh as [-> | ->]; unfold serve in Hrun.
  - unfold uploadStart in Hrun.
    destruct (GoLib.ParseInt (FormValue r "size")) as [size |].
    2: { mrun_in Hrun. injection Hrun as _ <- _. apply footprint_same; reflexivity. }
    destruct (size =? 0) eqn:Hz.
    { mrun_in Hrun. injection Hrun as _ <- _. apply footprint_same; reflexivity. }
    mrun_in Hrun.
    destruct (size >? maxFileSize) eqn:Hbig.
    { mrun_in Hrun. injection Hrun as _ <- _. apply footprint_same; reflexivity. }
    destruct (negb (CalcQuota (fst (userFrom r)) =? 0)
              && (add64 (uUsage (fst (userFrom r))) size >? CalcQuota (fst (userFrom r)))).
    { mrun_in Hrun. injection Hrun as _ <- _. apply footprint_same; reflexivity. }
    mrun_in Hrun.
    match type of Hrun with
    | context [env_fault env (EvCreate ?x)] => set (zf := x) in *
    end.
    assert (Hins : forall w1 : World,
               w_users w1 = w_users w -> w_stored w1 = w_stored w ->
               w_now w1 = w_now w -> w_stdout w1 = w_stdout w ->
               (w_created w <= w_created w1)%nat ->
               w_files w1 = <[fID zf := zf]> (w_files w) ->
               start_footprint (fst (userFrom r)) w w1).
    { intros w1 H1 H2 H3 H4 H5 H6.
      apply (footprint_insert _ _ w1 zf); try assumption; try reflexivity.
      - cbn. lia.
      - cbn. lia. }
    destruct (env_fault env (EvCreate zf)) as [e |].
    { injection Hrun as _ <- _. apply footprint_same; cbn; auto. }
    mrun_in Hrun.
    destruct (bool_decide (is_Some (w_uploads w !! Path env zf))).
    { injection Hrun as _ <- _. apply Hins; cbn; auto. }
    mrun_in Hrun.
    destruct (env_presign_put env (Path env zf) size
                (encodeContentDisp (FormValue r "name"))) as [e | url];
      mrun_in Hrun; try (destruct (env_encode env _); mrun_in Hrun);
      injection Hrun as _ <- _; apply Hins; cbn; auto.
  - unfold uploadStart2 in Hrun.
    destruct (r_body r) as [e | input].
    { mrun_in Hrun. injection Hrun as _ <- _. apply footprint_same; reflexivity. }
    mrun_in Hrun.
    destruct (start2_loop env (fst (userFrom r)) input 0 [] (mkSt w freshResponse))
      as [res s1] eqn:Hloop.
    apply start2_loop_footprint in Hloop. cbn [st_world] in Hloop.
    destruct res as [[tot outp] | |]; mrun_in Hrun.
    + destruct (negb (CalcQuota (fst (userFrom r)) =? 0)
                && (add64 (uUsage (fst (userFrom r))) tot >? CalcQuota (fst (userFrom r))));
        mrun_in Hrun; try (destruct (env_encode env _); mrun_in Hrun);
        injection Hrun as _ <- _; exact Hloop.
    + injection Hrun as _ <- _. exact Hloop.
    + injection Hrun as _ <- _. exact Hloop.
Qed.

Lemma upload_start_footprint_witness :
  let r := Demo.batchReq [Demo.song 100; Demo.song 0] in
  let run := serve (uploadStart2 Demo.env r) Demo.world0 in
  serve (uploadStart2 Demo.env r) Demo.world0 = (fst (fst run), snd (fst run), snd run)
  /\ start_footprint (fst (userFrom r)) Demo.world0 (snd (fst run))
  /\ w_uploads (snd (fst run)) = w_uploads Demo.world0.
Proof.
  intros r run.
  assert (Hrun : serve (uploadStart2 Demo.env r) Demo.world0
                 = (fst (fst run), snd (fst run), snd run)) by (vm_compute; reflexivity).
  split; [exact Hrun |].
  exact (upload_start_footprint Demo.env r (uploadStart2 Demo.env r) Demo.world0
           (snd (fst run)) (fst (fst run)) (snd run) (or_intror eq_refl) Hrun).
Defined.

(** ** The answer of an accepted batch *)

Lemma start2_loop_val (env : Env) (u : User) (input : list Item) :
  forall (tot : Z) (out : list Meta) (s s' : St) (tot' : Z) (out' : list Meta),
    start2_loop env u input tot out s = (Val (tot', out'), s') ->
    tot' = total64 input tot
    /\ (exists metas,
          out' = out ++ metas
          /\ map mID metas = fresh_ids env (w_created (st_world s)) (length input)
          /\ Forall2 (fun f m =>
                        mCD m = encodeContentDisp (iName f)
                        /\ env_presign_put env (env_path env (uID u) (mID m))
                                           (iSize f) (mCD m) = inr (mURL m))
                     input metas)
    /\ Forall (fun f => iSize f <> 0 /\ iSize f <= maxFileSize) input
    /\ st_resp s' = st_resp s.
Proof.
  induction input as [| f rest IH]; intros tot out s s' tot' out' H;
    cbn [start2_loop] in H.
  - mrun_in H. injection H as <- <- <-. split; [reflexivity |].
    split; [| split; [constructor | reflexivity]].
    exists []. rewrite app_nil_r. repeat split. constructor.
  - destruct (iSize f =? 0) eqn:Hz; [discriminate H |].
    destruct (iSize f >? maxFileSize) eqn:Hbig; [discriminate H |].
    mrun_in H.
    match type of H with
    | context [env_fault env (EvCreate ?x)] => set (zf := x) in *
    end.
    destruct (env_fault env (EvCreate zf)) as [e |]; [discriminate H |].
    mrun_in H.
    destruct (bool_decide (is_Some (w_uploads (st_world s) !! Path env zf)));
      [discriminate H |].
    mrun_in H.
    destruct (env_presign_put env (Path env zf) (iSize f) (encodeContentDisp (iName f)))
      as [e | url] eqn:Hurl; [discriminate H |].
    apply IH in H. cbn [st_world st_resp w_created w_log w_set_files w_bump] in H.
    destruct H as (Htot & (metas & Hout & Hids & Hall) & Hvalid & Hresp).
    split; [exact Htot |].
    split; [| split; [| exact Hresp]].
    + exists (mkMeta (fID zf) (encodeContentDisp (iName f)) url :: metas).
      split; [rewrite Hout, <- app_assoc; reflexivity |].
      split; [cbn [map length]; rewrite Hids; reflexivity |].
      constructor; [| exact Hall].
      split; [reflexivity | exact Hurl].
    + constructor; [| exact Hvalid]. lia.
Qed.

Lemma start2_loop_return (env : Env) (u : User) (input : list Item) :
  forall (tot : Z) (out : list Meta) (s s' : St),
    start2_loop env u input tot out s = (Return, s') ->
    status (st_resp s) = None ->
    status (st_resp s') = Some 400.
Proof.
  induction input as [| f rest IH]; intros tot out s s' H Hnone;
    cbn [start2_loop] in H.
  - discriminate H.
  - destruct (iSize f =? 0); [discriminate H |].
    destruct (iSize f >? maxFileSize).
    { mrun_in H. injection H as <-. cbn. rewrite Hnone. reflexivity. }
    mrun_in H.
    match type of H with
    | context [env_fault env (EvCreate ?x)] => set (zf := x) in *
    end.
    destruct (env_fault env (EvCreate zf)) as [e |]; [discriminate H |].
    mrun_in H.
    destruct (bool_decide (is_Some (w_uploads (st_world s) !! Path env zf)));
      [discriminate H |].
    mrun_in H.
    destruct (env_presign_put env (Path env zf) (iSize f) (encodeContentDisp (iName f)))
      as [e | url]; [discriminate H |].
    apply IH in H; [exact H | exact Hnone].
Qed.

(** X9.  When the batch upload-start answers 200, the body decoded to a
    list, every item of it declared a size that is not zero and not above
    the maximum, the wrapped sum of the sizes added to the usage is within
    the quota (or the quota is 0), and the answer lists one entry per item,
    in order: the ids are the next ids of the store in sequence, each
    content-disposition is the encoding of the item's name and each URL is
    what the presigning returned for the item's path, size and
    content-disposition. *)
Theorem uploadStart2_answer (env : Env) (r : Request) (w w' : World) (resp : Response) :
  serve (uploadStart2 env r) w = (Returned, w', resp) ->
  status resp = Some 200 ->
  let u := fst (userFrom r) in
  exists input metas,
    r_body r = inr input
    /\ body resp = [JsonBatch metas]
    /\ map mID metas = fresh_ids env (w_created w) (length input)
    /\ Forall2 (fun f m =>
                  mCD m = encodeContentDisp (iName f)
                  /\ env_presign_put env (env_path env (uID u) (mID m))
                                     (iSize f) (mCD m) = inr (mURL m))
               input metas
    /\ Forall (fun f => iSize f <> 0 /\ iSize f <= maxFileSize) input
    /\ (CalcQuota u = 0 \/ add64 (uUsage u) (total64 input 0) <= CalcQuota u)
    /\ headers resp !! "Tube-Upload-Usage" = Some (FormatInt (uUsage u)).
Proof.
  intros Hrun H200 u. unfold serve, uploadStart2 in Hrun. fold u in Hrun.
  destruct (r_body r) as [e | input]; [discriminate Hrun |].
  exists input. mrun_in Hrun.
  destruct (start2_loop env u input 0 [] (mkSt w freshResponse)) as [res s1] eqn:Hloop.
  destruct res as [[tot outp] | |]; mrun_in Hrun.
  - apply start2_loop_val in Hloop.
    destruct Hloop as (-> & (metas & -> & Hids & Hall) & Hvalid & Hresp).
    cbn [st_resp st_world] in Hresp, Hids.
    destruct (negb (CalcQuota u =? 0) && (add64 (uUsage u) (total64 input 0) >? CalcQuota u))
      eqn:Hq; mrun_in Hrun.
    + injection Hrun as <- <-. rewrite Hresp in H200. discriminate H200.
    + destruct (env_encode env _); mrun_in Hrun; [discriminate Hrun |].
      injection Hrun as <- <-.
      exists metas. rewrite Hresp. cbn.
      split; [reflexivity |]. split; [reflexivity |]. split; [exact Hids |].
      split; [exact Hall |]. split; [exact Hvalid |]. split.
      * apply andb_false_iff in Hq as [Hq | Hq].
        -- left. apply negb_false_iff, Z.eqb_eq in Hq. exact Hq.
        -- right. lia.
      * rewrite lookup_insert_ne by discriminate.
        rewrite lookup_insert_eq. reflexivity.
  - apply start2_loop_return in Hloop; [| reflexivity].
    injection Hrun as <- <-. rewrite Hloop in H200. discriminate H200.
  - discriminate Hrun.
Qed.

Lemma uploadStart2_answer_witness :
  let r := Demo.batchReq [Demo.song 100; Demo.song 200] in
  let run := serve (uploadStart2 Demo.env r) Demo.world0 in
  let u := fst (userFrom r) in
  serve (uploadStart2 Demo.env r) Demo.world0 = (Returned, snd (fst run), snd run)
  /\ status (snd run) = Some 200
  /\ exists input metas,
       r_body r = inr input
       /\ body (snd run) = [JsonBatch metas]
       /\ map mID metas = fresh_ids Demo.env (w_created Demo.world0) (length input)
       /\ Forall2 (fun f m =>
                     mCD m = encodeContentDisp (iName f)
                     /\ env_presign_put Demo.env (env_path Demo.env (uID u) (mID m))
                                        (iSize f) (mCD m) = inr (mURL m))
                  input metas
       /\ Forall (fun f => iSize f <> 0 /\ iSize f <= maxFileSize) input
       /\ (CalcQuota u = 0 \/ add64 (uUsage u) (total64 input 0) <= CalcQuota u)
       /\ headers (snd run) !! "Tube-Upload-Usage" = Some (FormatInt (uUsage u)).
Proof.
  intros r run u.
  assert (Hrun : serve (uploadStart2 Demo.env r) Demo.world0
                 = (Returned, snd (fst run), snd run)) by (vm_compute; reflexivity).
  assert (H200 : status (snd run) = Some 200) by (vm_compute; reflexivity).
  split; [exact Hrun |]. split; [exact H200 |].
  exact (uploadStart2_answer Demo.env r Demo.world0 (snd (fst run)) (snd run) Hrun H200).
Defined.

(** ** Upload finish: when it goes through, and what then *)

(** X10.  A finish call for a pending record of the caller whose upload path
    holds no object (the client never uploaded) panics with the error of the
    [Head] call: the record is not finished, and the records, the users and
    the buckets are as before; only the lookup and the [Head] were made. *)
Theorem uploadFinish_without_object (env : Env) (r : Request) (w : World)
        (u : User) (f : File) :
  r_user r = Some u ->
  QueryGet r "bid" <> "" ->
  env_fault env (EvGetFile (Param r "id")) = None ->
  w_files w !! Param r "id" = Some f ->
  fDeleted f = false ->
  fUserID f = uID u ->
  w_uploads w !! Path env f = None ->
  let w' := w_log (EvHead (Path env f)) (w_log (EvGetFile (Param r "id")) w) in
  exists e,
    serve (uploadFinish env r) w = (Panicked (PErr e), w', freshResponse)
    /\ (env_fault env (EvHead (Path env f)) = None -> e = ErrNotFound)
    /\ same_stores w w'.
Proof.
  intros Hu Hbid Hfault Hfile Hdel Hown Hnone w'.
  assert (Hb : String.eqb (QueryGet r "bid") "" = false)
    by (apply String.eqb_neq; exact Hbid).
  assert (Hguard : fDeleted f || negb (fUserID f =? uID u) = false).
  { rewrite Hdel, Hown, Z.eqb_refl. reflexivity. }
  exists (match env_fault env (EvHead (Path env f)) with Some e => e | None => ErrNotFound end).
  split; [| split].
  - unfold serve, uploadFinish, userFrom. rewrite Hu. cbn [negb]. cbv iota.
    rewrite Hb. mrun. cbn [w_log w_files]. rewrite Hfault, Hfile. mrun.
    rewrite Hguard. mrun. cbn [w_log w_uploads]. rewrite Hnone.
    destruct (env_fault env (EvHead (Path env f))); reflexivity.
  - intros ->. reflexivity.
  - repeat split.
Qed.

Lemma uploadFinish_without_object_witness :
  let w := w_set_uploads ∅ (Demo.uploaded "audio/flac" 10) in
  let r := Demo.finishReq "f0" "b1" in
  let w' := w_log (EvHead "up/f0") (w_log (EvGetFile "f0") w) in
  w_uploads w !! "up/f0" = None
  /\ exists e,
       serve (uploadFinish Demo.env r) w = (Panicked (PErr e), w', freshResponse)
       /\ (env_fault Demo.env (EvHead "up/f0") = None -> e = ErrNotFound)
       /\ same_stores w w'.
Proof.
  intros w r w'.
  assert (Hnone : w_uploads w !! "up/f0" = None) by (vm_compute; reflexivity).
  split; [exact Hnone |].
  apply (uploadFinish_without_object Demo.env r w Demo.alice Demo.pending).
  - reflexivity.
  - vm_compute. discriminate.
  - reflexivity.
  - vm_compute. reflexivity.
  - reflexivity.
  - reflexivity.
  - exact Hnone.
Defined.

(** ** Start, transfer, finish *)

Lemma uploadFinish_reaches_finish (env : Env) (r : Request) (w : World)
      (u : User) (f : File) (o : Object) :
  r_user r = Some u ->
  QueryGet r "bid" <> "" ->
  env_fault env (EvGetFile (Param r "id")) = None ->
  w_files w !! Param r "id" = Some f ->
  fDeleted f = false ->
  fUserID f = uID u ->
  env_fault env (EvHead (Path env f)) = None ->
  w_uploads w !! Path env f = Some o ->
  exists out w' resp rest,
    serve (uploadFinish env r) w = (out, w', resp)
    /\ w_trace w' = w_trace w ++
         [EvGetFile (Param r "id"); EvHead (Path env f);
          EvFinish (fID f) (oType o) (oSize o)] ++ rest.
Proof.
  intros Hu Hbid Hf1 Hfile Hdel Hown Hf2 Hobj.
  assert (Hb : String.eqb (QueryGet r "bid") "" = false)
    by (apply String.eqb_neq; exact Hbid).
  assert (Hguard : fDeleted f || negb (fUserID f =? uID u) = false).
  { rewrite Hdel, Hown, Z.eqb_refl. reflexivity. }
  unfold serve, uploadFinish, userFrom. rewrite Hu. cbn [negb]. cbv iota.
  rewrite Hb. mrun. cbn [w_log w_files]. rewrite Hf1, Hfile. mrun.
  rewrite Hguard. mrun. cbn [w_log w_uploads]. rewrite Hf2, Hobj. mrun.
  destruct (env_fault env (EvFinish (fID f) (oType o) (oSize o))); mrun.
  { eexists _, _, _, []. split; [reflexivity |]. cbn. rewrite <- !app_assoc. reflexivity. }
  destruct (oSize o >? maxFileSize); mrun;
    try (destruct (env_fault env (EvDelete FilesBucket (Path env f))); mrun);
    (destruct (env_fault env (EvHandleUpload (Path env f) (uID u) (QueryGet r "bid")));
     cbn [w_log w_uploads w_users w_set_files w_set_stored w_print]; rewrite ?Hobj; mrun;
     [eexists _, _, _, _; split; [reflexivity |]; cbn; rewrite <- !app_assoc; reflexivity |]);
    (destruct (w_users w !! uID u); mrun;
     [| eexists _, _, _, _; split; [reflexivity |]; cbn; rewrite <- !app_assoc; reflexivity]);
    (destruct (env_fault env (EvUpdateLastMod (uID u))); mrun;
     [eexists _, _, _, _; split; [reflexivity |]; cbn; rewrite <- !app_assoc; reflexivity |]);
    (destruct (env_encode env _); mrun;
     eexists _, _, _, _; (split; [reflexivity |]); cbn; rewrite <- !app_assoc; reflexivity).
Qed.

(** X12.  Start, transfer, finish.  Take an accepted single upload-start by
    [u] (size parsed, not zero, not above the maximum, within the quota; the
    record stored, the path free, the presigning and the encoder working),
    then any object put at the upload path, then a finish call by [u] with a
    non-empty [bid] for the id that start answered, whose lookup and [Head]
    work.  The finish call resolves the record start stored and calls
    [File.Finish] with the size and type [Head] reports for the object: the
    declared size, the one the quota test of start saw, is not what is
    passed on. *)
Theorem start_put_finish (env : Env) (rs rf : Request) (w : World)
        (u : User) (size : Z) (url : string) (o : Object) :
  let name := FormValue rs "name" in
  let zf := newRecord env w u name size (FormValue rs "type") (formLastMod rs) in
  let disp := encodeContentDisp name in
  r_user rs = Some u ->
  GoLib.ParseInt (FormValue rs "size") = Some size ->
  size <> 0 ->
  size <= maxFileSize ->
  CalcQuota u = 0 \/ add64 (uUsage u) size <= CalcQuota u ->
  env_fault env (EvCreate zf) = None ->
  w_uploads w !! Path env zf = None ->
  env_presign_put env (Path env zf) size disp = inr url ->
  env_encode env (JsonStart (mkStartAnswer (fID zf) disp url "")) = None ->
  r_user rf = Some u ->
  QueryGet rf "bid" <> "" ->
  Param rf "id" = fID zf ->
  env_fault env (EvGetFile (fID zf)) = None ->
  env_fault env (EvHead (Path env zf)) = None ->
  exists w1 resp1 out w2 resp2 rest,
    serve (uploadStart env rs) w = (Returned, w1, resp1)
    /\ headers resp1 !! "Tube-Upload-ID" = Some (Param rf "id")
    /\ serve (uploadFinish env rf) (clientPut (Path env zf) o w1) = (out, w2, resp2)
    /\ w_trace w2 = w_trace w1 ++
         [EvGetFile (fID zf); EvHead (Path env zf);
          EvFinish (fID zf) (oType o) (oSize o)] ++ rest.
Proof.
  intros name zf disp Hus Hsize Hnz Hmax Hquota Hcreate Hfree Hurl Henc
         Huf Hbid Hid Hget Hhead.
  assert (Hctx : fst (userFrom rs) = u) by (unfold userFrom; rewrite Hus; reflexivity).
  pose proof (uploadStart_run_ok env rs w size url) as Hstart.
  cbv zeta in Hstart. rewrite Hctx in Hstart.
  fold name in Hstart. fold zf in Hstart. fold disp in Hstart.
  destruct (Hstart Hsize Hnz Hmax Hquota Hcreate Hfree Hurl Henc) as
    (w1 & resp1 & Hrun1 & _ & Hhdr & _ & Hfiles1 & _).
  destruct (uploadFinish_reaches_finish env rf (clientPut (Path env zf) o w1) u zf o) as
    (out & w2 & resp2 & rest & Hrun2 & Htrace); try assumption.
  - rewrite Hid. exact Hget.
  - cbn. rewrite Hfiles1, Hid. apply lookup_insert_eq.
  - reflexivity.
  - reflexivity.
  - cbn. apply lookup_insert_eq.
  - exists w1, resp1, out, w2, resp2, rest.
    split; [exact Hrun1 |]. split; [rewrite Hid; exact Hhdr |].
    split; [exact Hrun2 |]. rewrite Hid in Htrace. exact Htrace.
Qed.

Lemma start_put_finish_witness :
  let rs := Demo.startReq "100" in
  let rf := Demo.finishReq "f0" "b1" in
  let o := mkObject "audio/flac" 400000000 in
  exists w1 resp1 out w2 resp2 rest,
    serve (uploadStart Demo.env rs) Demo.world0 = (Returned, w1, resp1)
    /\ headers resp1 !! "Tube-Upload-ID" = Some (Param rf "id")
    /\ serve (uploadFinish Demo.env rf) (clientPut "up/f0" o w1) = (out, w2, resp2)
    /\ w_trace w2 = w_trace w1 ++
         [EvGetFile "f0"; EvHead "up/f0"; EvFinish "f0" "audio/flac" 400000000] ++ rest.
Proof.
  intros rs rf o.
  apply (start_put_finish Demo.env rs rf Demo.world0 Demo.alice 100
           "https://put/up/f0" o).
  - reflexivity.
  - vm_compute. reflexivity.
  - discriminate.
  - vm_compute. discriminate.
  - right. vm_compute. discriminate.
  - reflexivity.
  - vm_compute. reflexivity.
  - vm_compute. reflexivity.
  - reflexivity.
  - reflexivity.
  - vm_compute. discriminate.
  - vm_compute. reflexivity.
  - reflexivity.
  - reflexivity.
Defined.

(** ** The token refresher, called again *)

(** X13.  For a margin other than the least [time.Duration]: when a refresh
    got from the backend a token that is not empty and whose expiry is later
    than [now - margin], and stored it, the next call with the same margin
    at the same time returns at once: no error, the same user and the same
    world, so no second request to the backend. *)
Theorem refreshB2Token_settles (env : Env) (u : User) (m : Z) (s : St)
        (token : string) (expire : Z) :
  - 2 ^ 63 < m < 2 ^ 63 ->
  ~ token_usable (w_now (st_world s)) m u ->
  backend_answer env (uID u) = inr (token, expire) ->
  env_fault env (EvSetB2Token (uID u) token expire) = None ->
  token <> "" ->
  w_now (st_world s) - m < expire ->
  exists u' s',
    refreshB2Token env u m s = (Val (None, u'), s')
    /\ uB2Token u' = token /\ uB2Expire u' = expire
    /\ refreshB2Token env u' m s' = (Val (None, u'), s').
Proof.
  intros Hm Hno Hans Hset Htok Hexp.
  assert (Htest : negb (String.eqb (uB2Token u) "")
                  && (w_now (st_world s) + neg64 m <? uB2Expire u) = false).
  { apply not_true_is_false. intros H. apply Hno, (token_usable_test _ _ _ Hm), H. }
  unfold backend_answer in Hans.
  exists (withToken token expire u).
  eexists. split; [| split; [reflexivity | split; [reflexivity |]]].
  - unfold refreshB2Token. mrun. rewrite Htest.
    destruct (env_fault env (EvCreateB2Token (uID u))); [discriminate Hans |].
    rewrite Hans. mrun. cbn [uID withToken] in *. rewrite Hset. mrun. reflexivity.
  - unfold refreshB2Token. mrun.
    cbn [w_now w_log w_set_users uB2Token uB2Expire withToken].
    assert (Hok : negb (String.eqb token "")
                  && (w_now (st_world s) + neg64 m <? expire) = true).
    { apply andb_true_iff. split; [apply negb_true_iff, String.eqb_neq, Htok |].
      rewrite (neg64_exact m Hm). lia. }
    rewrite Hok. reflexivity.
Qed.

Lemma refreshB2Token_settles_witness :
  let s := mkSt Demo.world0 freshResponse in
  - 2 ^ 63 < -4000 < 2 ^ 63
  /\ ~ token_usable 1000 (-4000) Demo.alice
  /\ exists u' s',
       refreshB2Token Demo.env Demo.alice (-4000) s = (Val (None, u'), s')
       /\ uB2Token u' = "tok2" /\ uB2Expire u' = 9000
       /\ refreshB2Token Demo.env u' (-4000) s' = (Val (None, u'), s').
Proof.
  intros s.
  assert (B : - 2 ^ 63 < -4000 < 2 ^ 63) by lia.
  assert (H : ~ token_usable 1000 (-4000) Demo.alice)
    by (intros [_ H]; vm_compute in H; discriminate H).
  split; [exact B |]. split; [exact H |].
  apply (refreshB2Token_settles Demo.env Demo.alice (-4000) s "tok2" 9000 B H).
  - reflexivity.
  - reflexivity.
  - discriminate.
  - vm_compute. reflexivity.
Defined.

(** ** The delete handler *)

(** X14.  Whatever [File.Delete] and [http.Redirect] do, [DeleteFile] does
    not call them for a record whose owner is not the caller: the answer is
    403 with the line "Forbidden", only the lookup was made, and the
    records, the users and the buckets are as before. *)
Theorem DeleteFile_foreign (env : Env) (fileDelete : File -> M (option Error))
        (Domain : string) (redirect : string -> Z -> M unit)
        (r : Request) (w : World) (f : File) :
  env_fault env (EvGetFile (Param r "id")) = None ->
  w_files w !! Param r "id" = Some f ->
  fUserID f <> uID (fst (userFrom r)) ->
  let w' := w_log (EvGetFile (Param r "id")) w in
  exists resp,
    serve (DeleteFile env fileDelete Domain redirect r) w = (Returned, w', resp)
    /\ status resp = Some 403
    /\ body resp = [Line "Forbidden"]
    /\ same_stores w w'.
Proof.
  intros Hfault Hfile Hown w'.
  assert (Hguard : negb (fUserID f =? uID (fst (userFrom r))) = true)
    by (apply negb_true_iff, Z.eqb_neq, Hown).
  unfold serve, DeleteFile. mrun. cbn [w_log w_files]. rewrite Hfault, Hfile. mrun.
  rewrite Hguard. mrun.
  eexists. repeat split.
Qed.

Lemma DeleteFile_foreign_witness :
  let w := Demo.uploaded "audio/flac" 10 in
  let r := Demo.finishReq "f1" "" in
  let wipe := fun _ : File => (fun s => (Val None, mkSt (w_set_files ∅ (st_world s)) (st_resp s))) : M (option Error) in
  let moved := fun (_ : string) (code : Z) => WriteHeader code in
  fUserID Demo.foreign <> uID (fst (userFrom r))
  /\ exists resp,
       serve (DeleteFile Demo.env wipe "inter.tube" moved r) w
         = (Returned, w_log (EvGetFile "f1") w, resp)
       /\ status resp = Some 403
       /\ body resp = [Line "Forbidden"]
       /\ same_stores w (w_log (EvGetFile "f1") w).
Proof.
  intros w r wipe moved.
  assert (Hne : fUserID Demo.foreign <> uID (fst (userFrom r)))
    by (vm_compute; discriminate).
  split; [exact Hne |].
  apply (DeleteFile_foreign Demo.env wipe "inter.tube" moved r w Demo.foreign).
  - reflexivity.
  - vm_compute. reflexivity.
  - exact Hne.
Defined.

(** ** Reading and printing sizes *)

Section Numbers.

Import GoLib.

Lemma digit_val_range (c : ascii) :
  is_digit c = true -> 0 <= digit_val c <= 9.
Proof.
  unfold is_digit, in_range, digit_val.
  change (N_of_ascii "0") with 48%N. change (N_of_ascii "9") with 57%N.
  rewrite andb_true_iff, !N.leb_le. lia.
Qed.

Lemma digit_not_sign (c : ascii) :
  is_digit c = true -> byte_eqb c "-" = false /\ byte_eqb c "+" = false.
Proof.
  intros H. unfold byte_eqb. split.
  - destruct (Ascii.eqb c "-") eqn:E; [| reflexivity].
    apply Ascii.eqb_eq in E. subst c. discriminate H.
  - destruct (Ascii.eqb c "+") eqn:E; [| reflexivity].
    apply Ascii.eqb_eq in E. subst c. discriminate H.
Qed.

Lemma parse_digits_nonneg (s : string) :
  forall acc v : Z, 0 <= acc -> parse_digits s acc = Some v -> 0 <= v.
Proof.
  induction s as [| c s IH]; intros acc v Hacc H; cbn [parse_digits] in H.
  - injection H as <-. exact Hacc.
  - destruct (is_digit c) eqn:Hc; [| discriminate H].
    eapply IH; [| exact H]. pose proof (digit_val_range c Hc). lia.
Qed.

(** X17.  Whatever string [strconv.ParseInt] accepts as [uploadStart] calls
    it (base 10, 64 bits), the value it returns is an [int64]. *)
Theorem ParseInt_int64 (s : string) (z : Z) :
  ParseInt s = Some z -> - 2 ^ 63 <= z <= 2 ^ 63 - 1.
Proof.
  unfold ParseInt. destruct s as [| c t]; [discriminate |].
  destruct (byte_eqb c "-") eqn:Hneg; cbn [orb negb andb].
  - rewrite orb_true_r.
    destruct t as [| c' t']; [discriminate |].
    destruct (parse_digits (String c' t') 0) as [un |] eqn:Hun; [| discriminate].
    pose proof (parse_digits_nonneg _ _ _ (Z.le_refl 0) Hun).
    destruct (2 ^ 63 <? un) eqn:Hr; [discriminate |].
    intros [= <-]. lia.
  - rewrite orb_false_r.
    destruct (if byte_eqb c "+" then t else String c t) as [| c' t'] eqn:Hbody;
      [discriminate |].
    destruct (parse_digits (String c' t') 0) as [un |] eqn:Hun; [| discriminate].
    pose proof (parse_digits_nonneg _ _ _ (Z.le_refl 0) Hun).
    destruct (2 ^ 63 <=? un) eqn:Hr; [discriminate |].
    intros [= <-]. lia.
Qed.

Lemma ParseInt_int64_witness :
  ParseInt "-9223372036854775808" = Some (- 2 ^ 63)
  /\ - 2 ^ 63 <= - 2 ^ 63 <= 2 ^ 63 - 1.
Proof.
  assert (H : ParseInt "-9223372036854775808" = Some (- 2 ^ 63)) by reflexivity.
  split; [exact H |].
  exact (ParseInt_int64 "-9223372036854775808" (- 2 ^ 63) H).
Defined.

Lemma pretty_char_digit (m : N) :
  (m < 10)%N ->
  is_digit (pretty_N_char m) = true /\ digit_val (pretty_N_char m) = Z.of_N m.
Proof.
  intros Hm.
  assert (m = 0 \/ m = 1 \/ m = 2 \/ m = 3 \/ m = 4 \/ m = 5 \/ m = 6 \/ m = 7
          \/ m = 8 \/ m = 9)%N as H by lia.
  repeat (destruct H as [-> | H]; [split; reflexivity |]).
  subst m. split; reflexivity.
Qed.

(** The digits [pretty_N_go] puts before [s] read back as the number. *)
Lemma parse_pretty_go (x : N) :
  forall (s : string) (acc : Z),
  exists k : nat,
    parse_digits (pretty_N_go x s) acc
    = parse_digits s (acc * 10 ^ Z.of_nat k + Z.of_N x).
Proof.
  induction (N.lt_wf_0 x) as [x _ IH]. intros s acc.
  destruct (N.eq_dec x 0%N) as [-> | Hx].
  - exists 0%nat. rewrite pretty_N_go_0. f_equal. cbn. lia.
  - rewrite pretty_N_go_step by lia.
    destruct (IH (x `div` 10)%N ltac:(apply N.div_lt; lia)
                 (String (pretty_N_char (x `mod` 10)) s) acc) as [k Hk].
    exists (S k). rewrite Hk. cbn [parse_digits].
    destruct (pretty_char_digit (x `mod` 10)%N ltac:(apply N.mod_lt; lia)) as [-> ->].
    f_equal. rewrite Nat2Z.inj_succ, Z.pow_succ_r by lia.
    pose proof (N.div_mod x 10 ltac:(lia)) as Hdm.
    apply (f_equal Z.of_N) in Hdm. rewrite N2Z.inj_add, N2Z.inj_mul in Hdm.
    change (Z.of_N 10) with 10 in Hdm. lia.
Qed.

Lemma pretty_go_starts_with_digit (x : N) :
  forall s : string, (0 < x)%N ->
    exists c t, pretty_N_go x s = String c t /\ is_digit c = true.
Proof.
  induction (N.lt_wf_0 x) as [x _ IH]. intros s Hx.
  rewrite pretty_N_go_step by exact Hx.
  destruct (N.eq_dec (x `div` 10)%N 0%N) as [Hd | Hd].
  - rewrite Hd, pretty_N_go_0. eexists _, _. split; [reflexivity |].
    apply pretty_char_digit, N.mod_lt. lia.
  - apply IH; [apply N.div_lt; lia | apply N.neq_0_lt_0, Hd].
Qed.

Lemma parse_pretty_pos (p : positive) :
  exists c t,
    pretty_N_go (N.pos p) "" = String c t
    /\ is_digit c = true
    /\ parse_digits (String c t) 0 = Some (Z.pos p).
Proof.
  destruct (pretty_go_starts_with_digit (N.pos p) "" ltac:(lia)) as (c & t & Heq & Hc).
  exists c, t. split; [exact Heq |]. split; [exact Hc |].
  destruct (parse_pretty_go (N.pos p) "" 0) as [k Hk].
  rewrite Heq in Hk. rewrite Hk. reflexivity.
Qed.

(** X18.  [strconv.ParseInt] reads back every [int64] from the decimal text
    [strconv.FormatInt] prints for it (the text of the usage and quota
    headers). *)
Theorem ParseInt_FormatInt (z : Z) :
  - 2 ^ 63 <= z <= 2 ^ 63 - 1 ->
  ParseInt (FormatInt z) = Some z.
Proof.
  intros Hz. destruct z as [| p | p].
  - reflexivity.
  - destruct (parse_pretty_pos p) as (c & t & Heq & Hc & Hparse).
    change (FormatInt (Z.pos p)) with (pretty_N (N.pos p)).
    unfold pretty_N. destruct (decide (N.pos p = 0%N)) as [Hp | _]; [discriminate Hp |].
    rewrite Heq. unfold ParseInt.
    destruct (digit_not_sign c Hc) as [-> ->]. cbn [orb negb andb].
    rewrite Hparse.
    assert (Hr : (2 ^ 63 <=? Z.pos p) = false) by lia.
    rewrite Hr. reflexivity.
  - destruct (parse_pretty_pos p) as (c & t & Heq & Hc & Hparse).
    change (FormatInt (Z.neg p)) with (String "-" (pretty_N (N.pos p))).
    unfold pretty_N. destruct (decide (N.pos p = 0%N)) as [Hp | _]; [discriminate Hp |].
    rewrite Heq. unfold ParseInt.
    change (byte_eqb "-" "-") with true. change (byte_eqb "-" "+") with false.
    cbn [orb negb andb]. rewrite Hparse.
    assert (Hr : (2 ^ 63 <? Z.pos p) = false) by lia.
    rewrite Hr. reflexivity.
Qed.

Lemma ParseInt_FormatInt_witness :
  - 2 ^ 63 <= 900000 <= 2 ^ 63 - 1 /\ ParseInt (FormatInt 900000) = Some 900000.
Proof.
  assert (H : - 2 ^ 63 <= 900000 <= 2 ^ 63 - 1) by lia.
  split; [exact H |].
  exact (ParseInt_FormatInt 900000 H).
Defined.

End Numbers.

(** ** What a refused batch leaves behind *)






(** ** Upload finish over the maximum *)


